(** * terraform-provider-etcd: the key/value and user reconcilers

    A shallow embedding of the resource functions [KvResourceCreate],
    [KvResourceRead] and [KvResourceDelete] of package [etcd], together
    with the parts of the Go runtime, of the etcd client and of the
    Terraform SDK that these functions call.  The three resource functions
    are transcribed statement by statement; the libraries they call are
    external to the repository and are modelled by small executable
    doubles, each introduced where it is defined.

    The second half embeds package [tf6server]: the options of [Serve] and
    [New], the logging contexts, the RPC handlers and the stopping of the
    server. *)

From stdpp Require Import base option strings list gmap fin_maps.

Local Open Scope string_scope.

(** ** Go runtime: error values and contexts *)

Module Go.

(** The error values that the source compares against in [switch err],
    and every other error, which only carries its message. *)
Inductive error : Type :=
| Canceled                       (* context.Canceled *)
| DeadlineExceeded               (* context.DeadlineExceeded *)
| ErrEmptyKey                    (* rpctypes.ErrEmptyKey *)
| errorString (msg : string).    (* errors.New / fmt.Errorf *)

(** [err.Error()] *)
Definition Error (err : error) : string :=
  match err with
  | Canceled => "context canceled"
  | DeadlineExceeded => "context deadline exceeded"
  | ErrEmptyKey => "etcdserver: key is not provided"
  | errorString msg => msg
  end.

(** [fmt.Errorf(format, err)] for a format that ends in [%v]:
    [format] is the text before the verb. *)
Definition Errorf (format : string) (err : error) : error :=
  errorString (format +:+ Error err).

(** The state of the caller's [context.Context] while a call is in
    flight. *)
Inductive Context : Type :=
| Live
| Cancelled
| Expired.

(** [ctx.Err()] *)
Definition Err (ctx : Context) : option error :=
  match ctx with
  | Live => None
  | Cancelled => Some Canceled
  | Expired => Some DeadlineExceeded
  end.

End Go.

(** ** The etcd client (external collaborator)

    A transactional store double: a keyspace, a user table, the health of
    the endpoints, and the list of requests that were handed to the client,
    oldest first. *)

Module clientv3.

Record KeyValue : Type := { Key : string; Value : string }.

Record GetResponse : Type := { Kvs : list KeyValue }.

Record TxnResponse : Type := { Succeeded : bool }.

(** [clientv3util.KeyMissing], [clientv3util.KeyExists] *)
Inductive Cmp : Type :=
| KeyMissing (key : string)
| KeyExists (key : string).

Inductive Op : Type :=
| OpPut (key val : string)
| OpDelete (key : string).

Inductive Request : Type :=
| ReqGet (key : string)
| ReqTxn (cmps : list Cmp) (thens : list Op)
| ReqUserAdd (name password : string).

Record Client : Type := {
  keyspace : gmap string string;
  accounts : gmap string string;
  (** [Some msg]: the endpoints are unusable and every call fails with
      [msg] *)
  endpointFailure : option string;
  invoked : list Request
}.

Definition record (r : Request) (c : Client) : Client :=
  {| keyspace := keyspace c; accounts := accounts c;
     endpointFailure := endpointFailure c;
     invoked := (invoked c ++ [r])%list |}.

Definition withKeyspace (m : gmap string string) (c : Client) : Client :=
  {| keyspace := m; accounts := accounts c;
     endpointFailure := endpointFailure c;
     invoked := invoked c |}.

Definition withAccounts (m : gmap string string) (c : Client) : Client :=
  {| keyspace := keyspace c; accounts := m;
     endpointFailure := endpointFailure c;
     invoked := invoked c |}.

Definition cmpKey (c : Cmp) : string :=
  match c with KeyMissing k => k | KeyExists k => k end.

Definition opKey (o : Op) : string :=
  match o with OpPut k _ => k | OpDelete k => k end.

(** The error, if any, with which a call on [keys] comes back: the
    caller's context first, then the transport, then request validation
    (a request that names an empty key is rejected). *)
Definition callError (ctx : Go.Context) (c : Client) (keys : list string)
  : option Go.error :=
  match Go.Err ctx with
  | Some err => Some err
  | None =>
    match endpointFailure c with
    | Some msg => Some (Go.errorString msg)
    | None =>
      if bool_decide ("" ∈ keys) then Some Go.ErrEmptyKey else None
    end
  end.

Definition holds (m : gmap string string) (c : Cmp) : bool :=
  match c with
  | KeyMissing k => bool_decide (m !! k = None)
  | KeyExists k => bool_decide (is_Some (m !! k))
  end.

Definition apply (m : gmap string string) (o : Op) : gmap string string :=
  match o with
  | OpPut k v => <[k := v]> m
  | OpDelete k => delete k m
  end.

(** [client.Get(ctx, key)] *)
Definition Get (ctx : Go.Context) (key : string) (c : Client)
  : Client * (GetResponse + Go.error) :=
  let c := record (ReqGet key) c in
  match callError ctx c [key] with
  | Some err => (c, inr err)
  | None =>
    (c, inl {| Kvs := match keyspace c !! key with
                      | Some v => [ {| Key := key; Value := v |} ]
                      | None => []
                      end |})
  end.

(** The transaction builder [kvc.Txn(ctx).If(..).Then(..)]. *)
Record txn : Type := {
  txnCtx : Go.Context;
  cmps : list Cmp;
  thens : list Op
}.

Definition Txn (ctx : Go.Context) : txn :=
  {| txnCtx := ctx; cmps := []; thens := [] |}.

Definition If (cs : list Cmp) (t : txn) : txn :=
  {| txnCtx := txnCtx t; cmps := cs; thens := thens t |}.

Definition Then (ops : list Op) (t : txn) : txn :=
  {| txnCtx := txnCtx t; cmps := cmps t; thens := ops |}.

(** [txn.Commit()]: all or nothing.  When every comparison holds the
    operations are applied in order and the response says [Succeeded];
    when one fails nothing is applied, the response says so, and there
    is no error. *)
Definition Commit (t : txn) (c : Client)
  : Client * (TxnResponse + Go.error) :=
  let c := record (ReqTxn (cmps t) (thens t)) c in
  match callError (txnCtx t) c ((cmpKey <$> cmps t) ++ (opKey <$> thens t)) with
  | Some err => (c, inr err)
  | None =>
    if forallb (holds (keyspace c)) (cmps t)
    then (withKeyspace (foldl apply (keyspace c) (thens t)) c,
          inl {| Succeeded := true |})
    else (c, inl {| Succeeded := false |})
  end.

End clientv3.

(** ** The Terraform SDK (external collaborator) *)

Module diag.

Inductive Severity : Type := Error | Warning.

Record Diagnostic : Type := { severity : Severity; Summary : string }.

Definition Diagnostics : Type := list Diagnostic.

(** [diag.FromErr(err)] for a non-nil [err] *)
Definition FromErr (err : Go.error) : Diagnostics :=
  [ {| severity := Error; Summary := Go.Error err |} ].

End diag.

Module schema.

(** The [interface{}] values that the resource functions read from and
    write to a [ResourceData]. *)
Inductive Value : Type :=
| Str (s : string)
| Records (kvs : list clientv3.KeyValue).

(** The primitive types of the SDK's schemas. *)
Inductive ValueType : Type := TypeBool | TypeInt | TypeFloat | TypeString.

(** [ResourceData]: the identity ([""] when there is none), the bag of
    attributes, and the declared type of each attribute of the resource's
    schema. *)
Record ResourceData : Type := {
  Id : string;
  attributes : gmap string Value;
  types : gmap string ValueType
}.

Definition Get (key : string) (d : ResourceData) : Value :=
  default (Str "") (attributes d !! key).

(** [d.Set(key, value)]: the value is checked against the declared type
    of the attribute.  A string is stored under an attribute declared as
    a string; anything else (an attribute that is not declared, a value
    that does not decode to the declared primitive type) leaves the data
    as it was and returns an error, whose text is abridged here. *)
Definition Set_ (key : string) (value : Value) (d : ResourceData)
  : ResourceData * option Go.error :=
  match types d !! key with
  | None => (d, Some (Go.errorString ("Invalid address to set: " +:+ key)))
  | Some TypeString =>
    match value with
    | Str s =>
      ({| Id := Id d; attributes := <[key := Str s]> (attributes d);
          types := types d |}, None)
    | Records _ =>
      (d, Some (Go.errorString
                  (key +:+ ": expected type 'string', got unconvertible type")))
    end
  | Some _ =>
    (d, Some (Go.errorString (key +:+ ": got unconvertible type")))
  end.

Definition SetId (v : string) (d : ResourceData) : ResourceData :=
  {| Id := v; attributes := attributes d; types := types d |}.

(** The type assertion [v.(string)]; [None] is the run-time panic. *)
Definition assertString (v : Value) : option string :=
  match v with
  | Str s => Some s
  | Records _ => None
  end.

End schema.

(** ** Package etcd: the schema of the key/value resource *)

Module kvschema.

(** [schema.Schema]: the fields that the source sets; the others keep
    their zero value. *)
Record Schema : Type := {
  Type_ : schema.ValueType;
  Required : bool;
  Computed : bool;
  ForceNew : bool
}.

Inductive Operation : Type := Create | Read | Update | Delete.

(** [schema.Resource]: the description, the operations that have a
    function, and the schema. *)
Record Resource : Type := {
  Description : string;
  CreateContext : bool;
  ReadContext : bool;
  UpdateContext : bool;
  DeleteContext : bool;
  Schema_ : gmap string Schema
}.

(** [func KvResource() *schema.Resource] *)
Definition KvResource : Resource :=
  {| Description := "";
     CreateContext := true;
     ReadContext := true;
     UpdateContext := false;
     DeleteContext := true;
     Schema_ :=
       {[ "id" := {| Type_ := schema.TypeString; Required := false;
                     Computed := true; ForceNew := false |};
          "key" := {| Type_ := schema.TypeString; Required := true;
                      Computed := false; ForceNew := true |};
          "value" := {| Type_ := schema.TypeString; Required := true;
                        Computed := false; ForceNew := true |} ]} |}.

End kvschema.

(** ** Package etcd: the key/value resource *)

Module etcd.

(** [apiClient] carries the store connection; the resource functions
    receive it as [meta]. *)
Record apiClient : Type := { Client : clientv3.Client }.

(** What a resource function leaves behind: the diagnostics it returns
    ([[]] is Go's [nil]: success), the resource data and the client it
    was given, after the call. *)
Record Outcome : Type := {
  diags : diag.Diagnostics;
  data : schema.ResourceData;
  meta : apiClient
}.

(** [func KvResourceCreate(ctx, d, meta) diag.Diagnostics].  [None] is a
    panic of a type assertion. *)
Definition KvResourceCreate (ctx : Go.Context) (d : schema.ResourceData)
    (meta : apiClient) : option Outcome :=
  let diags : diag.Diagnostics := [] in
  let client := Client meta in
  key ← schema.assertString (schema.Get "key" d);
  value ← schema.assertString (schema.Get "value" d);
  let kvc := client in
  let '(kvc, res) :=
    clientv3.Commit
      (clientv3.Then [clientv3.OpPut key value]
        (clientv3.If [clientv3.KeyMissing key] (clientv3.Txn ctx))) kvc in
  let meta := {| Client := kvc |} in
  match res with
  | inr err =>
    match err with
    | Go.Canceled =>
      let errmsg := Go.Errorf "ctx is canceled by another routine: " err in
      Some {| diags := diag.FromErr errmsg; data := d; meta := meta |}
    | Go.DeadlineExceeded =>
      let errmsg :=
        Go.Errorf "ctx is attached with a deadline is exceeded: " err in
      Some {| diags := diag.FromErr errmsg; data := d; meta := meta |}
    | Go.ErrEmptyKey =>
      let errmsg := Go.Errorf "client-side error: " err in
      Some {| diags := diag.FromErr errmsg; data := d; meta := meta |}
    | _ =>
      let errmsg :=
        Go.Errorf "bad cluster endpoints, which are not etcd servers: " err in
      Some {| diags := diag.FromErr errmsg; data := d; meta := meta |}
    end
  | inl _ =>
    let d := schema.SetId key d in
    Some {| diags := diags; data := d; meta := meta |}
  end.

(** [func KvResourceRead(ctx, d, meta) diag.Diagnostics]; the error that
    [d.Set] returns is discarded, as in the source. *)
Definition KvResourceRead (ctx : Go.Context) (d : schema.ResourceData)
    (meta : apiClient) : option Outcome :=
  let client := Client meta in
  key ← schema.assertString (schema.Get "key" d);
  let '(client, res) := clientv3.Get ctx key client in
  let meta := {| Client := client |} in
  match res with
  | inr err => Some {| diags := diag.FromErr err; data := d; meta := meta |}
  | inl response =>
    let '(d, _) :=
      schema.Set_ "key" (schema.Records (clientv3.Kvs response)) d in
    Some {| diags := []; data := d; meta := meta |}
  end.

(** [func KvResourceDelete(ctx, d, meta) diag.Diagnostics] *)
Definition KvResourceDelete (ctx : Go.Context) (d : schema.ResourceData)
    (meta : apiClient) : option Outcome :=
  let client := Client meta in
  key ← schema.assertString (schema.Get "key" d);
  let kvc := client in
  let '(kvc, res) :=
    clientv3.Commit
      (clientv3.Then [clientv3.OpDelete key]
        (clientv3.If [clientv3.KeyExists key] (clientv3.Txn ctx))) kvc in
  let meta := {| Client := kvc |} in
  match res with
  | inr err => Some {| diags := diag.FromErr err; data := d; meta := meta |}
  | inl _ =>
    let d := schema.SetId "" d in
    Some {| diags := []; data := d; meta := meta |}
  end.

(** A declared key/value resource that has not been created yet. *)
Definition declared (key value : string) : schema.ResourceData :=
  {| schema.Id := "";
     schema.attributes :=
       {[ "key" := schema.Str key; "value" := schema.Str value ]};
     schema.types := kvschema.Type_ <$> kvschema.Schema_ kvschema.KvResource |}.

(** A connection to a healthy cluster that holds [m] and has not been
    used yet. *)
Definition connect (m : gmap string string) : apiClient :=
  {| Client := {| clientv3.keyspace := m; clientv3.accounts := ∅;
                  clientv3.endpointFailure := None;
                  clientv3.invoked := [] |} |}.

End etcd.

(** ** The failure taxonomy of the specification *)

Module taxonomy.

Inductive Failure : Type :=
| ClientCancelled
| DeadlineExceeded
| InvalidInput
| TransactionConflict
| ClusterUnreachable
| NotFound.

(** The class under which the specification files an error that a store
    call returned: the two context errors, the empty key as malformed
    input, and everything else as a failure of the transport or of the
    cluster. *)
Definition classify (err : Go.error) : Failure :=
  match err with
  | Go.Canceled => ClientCancelled
  | Go.DeadlineExceeded => DeadlineExceeded
  | Go.ErrEmptyKey => InvalidInput
  | Go.errorString _ => ClusterUnreachable
  end.

End taxonomy.

(** ** The user resource *)

Module user.

Import taxonomy.

(** Modelled from the spec: the store operation [createUser] of the
    external interfaces, which the missing user resource calls.  It is
    recorded like every other request; a name that is taken is a
    conflict, distinct from a transport failure. *)
Definition createUser (ctx : Go.Context) (username password : string)
    (c : clientv3.Client) : clientv3.Client * option Failure :=
  let c := clientv3.record (clientv3.ReqUserAdd username password) c in
  match clientv3.callError ctx c [] with
  | Some err => (c, Some (classify err))
  | None =>
    match clientv3.accounts c !! username with
    | Some _ => (c, Some TransactionConflict)
    | None =>
      (clientv3.withAccounts (<[username := password]> (clientv3.accounts c)) c,
       None)
    end
  end.

(** Modelled from the spec: the password policy of the user resource,
    whose source is missing (only its documentation page is among the
    source files).  A password of at most 9 characters violates the
    policy. *)
Definition Validate (password : string) : option Failure :=
  if bool_decide (String.length password ≤ 9)%nat then Some InvalidInput
  else None.

Record Outcome : Type := {
  failure : option Failure;
  identity : string;
  client : clientv3.Client
}.

(** Modelled from the spec: [Create(username, password)] of the user
    resource, whose source is missing.  Validation runs before any call
    to the store; on success the identity becomes the user name. *)
Definition Create (ctx : Go.Context) (username password : string)
    (c : clientv3.Client) : Outcome :=
  match Validate password with
  | Some f => {| failure := Some f; identity := ""; client := c |}
  | None =>
    let '(c, res) := createUser ctx username password c in
    match res with
    | Some f => {| failure := Some f; identity := ""; client := c |}
    | None => {| failure := None; identity := username; client := c |}
    end
  end.

End user.

(** ** Go's [strings] and [regexp], as far as package tf6server uses them *)

From Stdlib Require Import Ascii.

Module gostrings.

(** [strings.ReplaceAll(s, old, new)] for [old] and [new] of one byte
    each. *)
Fixpoint ReplaceAll (s : string) (old new : ascii) : string :=
  match s with
  | EmptyString => EmptyString
  | String c rest =>
    String (if Ascii.eqb c old then new else c) (ReplaceAll rest old new)
  end.

End gostrings.

Module regexp.

(** The class [[a-zA-Z0-9-]]. *)
Definition inClass (c : ascii) : bool :=
  let n := nat_of_ascii c in
  (((97 <=? n) && (n <=? 122))
   || ((65 <=? n) && (n <=? 90))
   || ((48 <=? n) && (n <=? 57))
   || (n =? 45))%nat.

(** The rest of a match of [[a-zA-Z0-9-]+$] once one character has been
    consumed: more characters of the class, up to the end of the text. *)
Fixpoint matchRest (s : string) : bool :=
  match s with
  | EmptyString => true
  | String c rest => inClass c && matchRest rest
  end.

(** [regexp.MustCompile(`^[a-zA-Z0-9-]+$`).MatchString(s)] *)
Definition MatchString (s : string) : bool :=
  match s with
  | EmptyString => false
  | String c rest => inClass c && matchRest rest
  end.

End regexp.

(** ** terraform-plugin-log, as far as package tf6server uses it *)

Module logging.

(** What the handlers of tf6server put into a request's
    [context.Context]: the fields of the SDK's root logger, of its
    subsystem loggers and of the provider's root logger, and the stop
    channels whose closing cancels the context.  The loggers are taken to
    exist, as [loggingContext] leaves them. *)
Record Context : Type := {
  sdkFields : gmap string string;
  subsystemFields : gmap string (gmap string string);
  providerFields : gmap string string;
  stopChs : list nat
}.

Inductive Level : Type := Trace | Error.

(** A line written to a subsystem logger: it carries the fields of the
    logger and the arguments of the call. *)
Record Entry : Type := {
  level : Level;
  subsystem : string;
  fields : gmap string string;
  message : string;
  args : list (string * string)
}.

End logging.

Module tfsdklog.

Import logging.

Definition With (ctx : Context) (key value : string) : Context :=
  {| sdkFields := <[key := value]> (sdkFields ctx);
     subsystemFields := subsystemFields ctx;
     providerFields := providerFields ctx;
     stopChs := stopChs ctx |}.

Definition SubsystemWith (ctx : Context) (subsystem key value : string)
  : Context :=
  {| sdkFields := sdkFields ctx;
     subsystemFields :=
       <[subsystem := <[key := value]>
                        (default ∅ (subsystemFields ctx !! subsystem))]>
         (subsystemFields ctx);
     providerFields := providerFields ctx;
     stopChs := stopChs ctx |}.

Definition SubsystemTrace (ctx : Context) (subsystem msg : string) : Entry :=
  {| level := Trace; logging.subsystem := subsystem;
     fields := default ∅ (subsystemFields ctx !! subsystem);
     message := msg; args := [] |}.

(** [tfsdklog.SubsystemError(ctx, subsystem, msg, "error", err)] *)
Definition SubsystemError (ctx : Context) (subsystem msg : string)
    (err : Go.error) : Entry :=
  {| level := Error; logging.subsystem := subsystem;
     fields := default ∅ (subsystemFields ctx !! subsystem);
     message := msg; args := [("error", Go.Error err)] |}.

End tfsdklog.

Module tflog.

Import logging.

Definition With (ctx : Context) (key value : string) : Context :=
  {| sdkFields := sdkFields ctx;
     subsystemFields := subsystemFields ctx;
     providerFields := <[key := value]> (providerFields ctx);
     stopChs := stopChs ctx |}.

End tflog.

(** ** Package tf6server *)

Module tf6server.

Definition tflogSubsystemName : string := "proto".

Definition logKeyRequestID : string := "tf_req_id".
Definition logKeyProviderAddress : string := "tf_provider_addr".
Definition logKeyRPC : string := "tf_rpc".
Definition logKeyResourceType : string := "tf_resource_type".
Definition logKeyDataSourceType : string := "tf_data_source_type".
Definition logKeyProtocolVersion : string := "tf_proto_version".

(** The types of other packages that the server only stores and passes
    on. *)
Class Externals : Type := {
  Logger : Type;            (* hclog.Logger *)
  DebugContext : Type;      (* context.Context of the debug mode *)
  ReattachCh : Type;        (* chan *plugin.ReattachConfig *)
  CloseCh : Type;           (* chan struct{} *)
  TestingT : Type;          (* testing.T *)
  ProviderServer : Type;    (* tfprotov6.ProviderServer *)
  ServerFactory : Type      (* func() tfprotov6.ProviderServer *)
}.

Section Serving.

Context `{Externals}.

(** [ServeConfig]; [None] is [nil]. *)
Record ServeConfig : Type := {
  logger : option Logger;
  debugCtx : option DebugContext;
  debugCh : option ReattachCh;
  debugCloseCh : option CloseCh;
  disableLogInitStderr : bool;
  disableLogLocation : bool;
  useLoggingSink : option TestingT;
  envVar : string
}.

(** [var conf ServeConfig] *)
Definition zeroServeConfig : ServeConfig :=
  {| logger := None; debugCtx := None; debugCh := None;
     debugCloseCh := None; disableLogInitStderr := false;
     disableLogLocation := false; useLoggingSink := None; envVar := "" |}.

(** [ServeOpt]: [ApplyServeOpt] changes the configuration in place and
    returns an error or [nil]. *)
Definition ServeOpt : Type := ServeConfig → ServeConfig * option Go.error.

Definition ApplyServeOpt (s : ServeOpt) (conf : ServeConfig)
  : ServeConfig * option Go.error := s conf.

Definition WithDebug (ctx : option DebugContext) (config : option ReattachCh)
    (closeCh : option CloseCh) : ServeOpt :=
  λ conf,
    ({| logger := logger conf; debugCtx := ctx; debugCh := config;
        debugCloseCh := closeCh;
        disableLogInitStderr := disableLogInitStderr conf;
        disableLogLocation := disableLogLocation conf;
        useLoggingSink := useLoggingSink conf; envVar := envVar conf |},
     None).

Definition WithGoPluginLogger (l : option Logger) : ServeOpt :=
  λ conf,
    ({| logger := l; debugCtx := debugCtx conf; debugCh := debugCh conf;
        debugCloseCh := debugCloseCh conf;
        disableLogInitStderr := disableLogInitStderr conf;
        disableLogLocation := disableLogLocation conf;
        useLoggingSink := useLoggingSink conf; envVar := envVar conf |},
     None).

Definition WithLoggingSink (t : option TestingT) : ServeOpt :=
  λ conf,
    ({| logger := logger conf; debugCtx := debugCtx conf;
        debugCh := debugCh conf; debugCloseCh := debugCloseCh conf;
        disableLogInitStderr := disableLogInitStderr conf;
        disableLogLocation := disableLogLocation conf;
        useLoggingSink := t; envVar := envVar conf |},
     None).

Definition WithoutLogStderrOverride : ServeOpt :=
  λ conf,
    ({| logger := logger conf; debugCtx := debugCtx conf;
        debugCh := debugCh conf; debugCloseCh := debugCloseCh conf;
        disableLogInitStderr := true;
        disableLogLocation := disableLogLocation conf;
        useLoggingSink := useLoggingSink conf; envVar := envVar conf |},
     None).

Definition WithoutLogLocation : ServeOpt :=
  λ conf,
    ({| logger := logger conf; debugCtx := debugCtx conf;
        debugCh := debugCh conf; debugCloseCh := debugCloseCh conf;
        disableLogInitStderr := disableLogInitStderr conf;
        disableLogLocation := true;
        useLoggingSink := useLoggingSink conf; envVar := envVar conf |},
     None).

Definition WithLogEnvVarName (name : string) : ServeOpt :=
  λ conf,
    if negb (regexp.MatchString name)
    then (conf,
          Some (Go.errorString
            "environment variable names can only contain a-z, A-Z, 0-9, and -"))
    else
      ({| logger := logger conf; debugCtx := debugCtx conf;
          debugCh := debugCh conf; debugCloseCh := debugCloseCh conf;
          disableLogInitStderr := disableLogInitStderr conf;
          disableLogLocation := disableLogLocation conf;
          useLoggingSink := useLoggingSink conf; envVar := name |},
       None).

(** The loop [for _, opt := range opts] with which [Serve] and [New]
    start: the options are applied in order, and the first error ends
    the loop. *)
Fixpoint applyOpts (opts : list ServeOpt) (conf : ServeConfig)
  : ServeConfig * option Go.error :=
  match opts with
  | [] => (conf, None)
  | opt :: opts =>
    match ApplyServeOpt opt conf with
    | (conf, Some err) => (conf, Some err)
    | (conf, None) => applyOpts opts conf
    end
  end.

(** go-plugin's configuration, as [Serve] fills it in. *)
Record HandshakeConfig : Type := {
  ProtocolVersion : nat;
  MagicCookieKey : string;
  MagicCookieValue : string
}.

Record GRPCProviderPlugin : Type := {
  GRPCProvider : ServerFactory;
  Opts : list ServeOpt;
  Name : string
}.

Record ServeTestConfig : Type := {
  TestContext : option DebugContext;
  ReattachConfigCh : option ReattachCh;
  TestCloseCh : option CloseCh
}.

(** The one value that [Serve] uses for go-plugin's server factory. *)
Inductive GRPCServerFactory : Type := DefaultGRPCServer.

Record PluginServeConfig : Type := {
  Handshake : HandshakeConfig;
  Plugins : gmap string GRPCProviderPlugin;
  GRPCServer : GRPCServerFactory;
  PluginLogger : option Logger;
  Test : option ServeTestConfig
}.

(** [func Serve(name, serverFactory, opts...) error]: [inl err] is the
    error returned before anything is served, [inr c] the configuration
    with which [plugin.Serve] is called. *)
Definition Serve (name : string) (serverFactory : ServerFactory)
    (opts : list ServeOpt) : Go.error + PluginServeConfig :=
  match applyOpts opts zeroServeConfig with
  | (_, Some err) => inl err
  | (conf, None) =>
    inr {| Handshake :=
             {| ProtocolVersion := 6;
                MagicCookieKey := "TF_PLUGIN_MAGIC_COOKIE";
                MagicCookieValue :=
                  "d602bf8f470bc67ca7faa0386276bbdd4330efaf76d1a219cb4d6991ca9872b2" |};
           Plugins :=
             {[ "provider" := {| GRPCProvider := serverFactory;
                                 Opts := opts; Name := name |} ]};
           GRPCServer := DefaultGRPCServer;
           PluginLogger := logger conf;
           Test :=
             match debugCh conf with
             | Some ch =>
               Some {| TestContext := debugCtx conf;
                       ReattachConfigCh := Some ch;
                       TestCloseCh := debugCloseCh conf |}
             | None => None
             end |}
  end.

(** The logging options that [New] collects; packages tfsdklog and tflog
    build them alike. *)
Inductive LogOption : Type :=
| WithStderrFromInit
| WithoutLocation
| WithLogName (name : string)
| WithLevelFromEnv (name : string) (subsystems : list string).

(** [server]; the mutex is left out, and the stop channel is the number
    of the channel in use together with the numbers of the channels that
    were closed. *)
Record server : Type := {
  downstream : ProviderServer;
  stopCh : nat;
  closed : gset nat;
  tflogSDKOpts : list LogOption;
  tflogOpts : list LogOption;
  useTFLogSink : bool;
  testHandle : option TestingT;
  name : string
}.

(** [tfaddr.ParseRawProviderSourceString(name)], reduced to the [Type]
    of the address it returns. *)
Variable ParseRawProviderSourceString : string → string + Go.error.

(** [func New(name, serve, opts...) tfplugin6.ProviderServer]; [None] is
    the panic on an option that fails.  The line that [log.Printf] writes
    when the address does not parse is left out. *)
Definition New (name : string) (serve : ProviderServer)
    (opts : list ServeOpt) : option server :=
  match applyOpts opts zeroServeConfig with
  | (_, Some err) => None
  | (conf, None) =>
    let sdkOptions : list LogOption := [] in
    let options : list LogOption := [] in
    let '(sdkOptions, options) :=
      if negb (disableLogInitStderr conf)
      then (sdkOptions ++ [WithStderrFromInit],
            options ++ [WithStderrFromInit])%list
      else (sdkOptions, options) in
    let '(sdkOptions, options) :=
      if disableLogLocation conf
      then (sdkOptions ++ [WithoutLocation],
            options ++ [WithoutLocation])%list
      else (sdkOptions, options) in
    let envVar := envVar conf in
    let envVar :=
      if String.eqb envVar ""
      then match ParseRawProviderSourceString name with
           | inr err => envVar
           | inl addrType => addrType
           end
      else envVar in
    let envVar := gostrings.ReplaceAll envVar "-"%char "_"%char in
    let options :=
      if negb (String.eqb envVar "")
      then (options ++ [WithLogName envVar;
                        WithLevelFromEnv "TF_LOG_PROVIDER" [envVar]])%list
      else options in
    Some {| downstream := serve;
            stopCh := 0;
            closed := ∅;
            tflogOpts := options;
            tflogSDKOpts := sdkOptions;
            name := name;
            useTFLogSink := bool_decide (is_Some (useLoggingSink conf));
            testHandle := useLoggingSink conf |}
  end.

(** [func (s *server) stop()]: the channel in use is closed and a new
    one takes its place. *)
Definition stop (s : server) : server :=
  {| downstream := downstream s;
     stopCh := S (stopCh s);
     closed := {[ stopCh s ]} ∪ closed s;
     tflogSDKOpts := tflogSDKOpts s;
     tflogOpts := tflogOpts s;
     useTFLogSink := useTFLogSink s;
     testHandle := testHandle s;
     name := name s |}.

End Serving.

(** [func (s *server) stoppableContext(ctx)]: the context that is
    returned is cancelled, by the goroutine that runs [mergeStop], once
    the stop channel in use at the time of the call is closed. *)
Definition stoppableContext `{Externals} (s : server)
    (ctx : logging.Context) : logging.Context :=
  {| logging.sdkFields := logging.sdkFields ctx;
     logging.subsystemFields := logging.subsystemFields ctx;
     logging.providerFields := logging.providerFields ctx;
     logging.stopChs := stopCh s :: logging.stopChs ctx |}.

Definition rpcLoggingContext (ctx : logging.Context) (rpc : string)
  : logging.Context :=
  let ctx := tfsdklog.With ctx logKeyRPC rpc in
  let ctx := tfsdklog.SubsystemWith ctx tflogSubsystemName logKeyRPC rpc in
  let ctx := tflog.With ctx logKeyRPC rpc in
  ctx.

Definition resourceLoggingContext (ctx : logging.Context) (resource : string)
  : logging.Context :=
  let ctx := tfsdklog.With ctx logKeyResourceType resource in
  let ctx :=
    tfsdklog.SubsystemWith ctx tflogSubsystemName logKeyResourceType
      resource in
  let ctx := tflog.With ctx logKeyResourceType resource in
  ctx.

Definition dataSourceLoggingContext (ctx : logging.Context)
    (dataSource : string) : logging.Context :=
  let ctx := tfsdklog.With ctx logKeyDataSourceType dataSource in
  let ctx :=
    tfsdklog.SubsystemWith ctx tflogSubsystemName logKeyDataSourceType
      dataSource in
  let ctx := tflog.With ctx logKeyDataSourceType dataSource in
  ctx.

Section Handlers.

Context `{Externals}.

(** The request and response types of one RPC, on the wire ([Req],
    [Ret]) and as the provider sees them ([R], [Resp]). *)
Context {Req R Resp Ret : Type}.

(** [s.loggingContext(ctx)], whose loggers come from
    terraform-plugin-log. *)
Variable loggingContext : server → logging.Context → logging.Context.

(** [req.TypeName] *)
Variable TypeName : Req → string.

(** The conversions of packages [fromproto] and [toproto] and the method
    of the downstream provider that belong to the RPC. *)
Variable fromproto : Req → R + Go.error.
Variable call : ProviderServer → logging.Context → R → Resp + Go.error.
Variable toproto : Resp → Ret + Go.error.

(** The statements that every handler but [Stop] runs once its context is
    set up, from "Received request" on; the deferred trace is written
    last.  The result is the log and what the handler returns. *)
Definition relay (s : server) (ctx : logging.Context) (req : Req)
  : list logging.Entry * (Ret + Go.error) :=
  let received :=
    tfsdklog.SubsystemTrace ctx tflogSubsystemName "Received request" in
  let served :=
    tfsdklog.SubsystemTrace ctx tflogSubsystemName "Served request" in
  match fromproto req with
  | inr err =>
    ([received;
      tfsdklog.SubsystemError ctx tflogSubsystemName
        "Error converting request from protobuf" err;
      served], inr err)
  | inl r =>
    let calling :=
      tfsdklog.SubsystemTrace ctx tflogSubsystemName "Calling downstream" in
    match call (downstream s) ctx r with
    | inr err =>
      ([received; calling;
        tfsdklog.SubsystemError ctx tflogSubsystemName
          "Error from downstream" err;
        served], inr err)
    | inl resp =>
      let called :=
        tfsdklog.SubsystemTrace ctx tflogSubsystemName "Called downstream" in
      match toproto resp with
      | inr err =>
        ([received; calling; called;
          tfsdklog.SubsystemError ctx tflogSubsystemName
            "Error converting response to protobuf" err;
          served], inr err)
      | inl ret => ([received; calling; called; served], inl ret)
      end
    end
  end.

(** The handlers of the RPCs that name no resource. *)
Definition providerRPC (rpc : string) (s : server) (ctx : logging.Context)
    (req : Req) : list logging.Entry * (Ret + Go.error) :=
  let ctx := rpcLoggingContext (loggingContext s ctx) rpc in
  let ctx := stoppableContext s ctx in
  relay s ctx req.

Definition GetProviderSchema := providerRPC "GetProviderSchema".

Definition ConfigureProvider := providerRPC "ConfigureProvider".

(** [ValidateProviderConfig] does not make its context stoppable. *)
Definition ValidateProviderConfig (s : server) (ctx : logging.Context)
    (req : Req) : list logging.Entry * (Ret + Go.error) :=
  let ctx := rpcLoggingContext (loggingContext s ctx) "ValidateProviderConfig" in
  relay s ctx req.

(** The handlers of the RPCs on a data source. *)
Definition dataSourceRPC (rpc : string) (s : server) (ctx : logging.Context)
    (req : Req) : list logging.Entry * (Ret + Go.error) :=
  let ctx :=
    dataSourceLoggingContext (rpcLoggingContext (loggingContext s ctx) rpc)
      (TypeName req) in
  let ctx := stoppableContext s ctx in
  relay s ctx req.

Definition ValidateDataResourceConfig :=
  dataSourceRPC "ValidateDataResourceConfig".

Definition ReadDataSource := dataSourceRPC "ReadDataSource".

(** The handlers of the RPCs on a resource. *)
Definition resourceRPC (rpc : string) (s : server) (ctx : logging.Context)
    (req : Req) : list logging.Entry * (Ret + Go.error) :=
  let ctx :=
    resourceLoggingContext (rpcLoggingContext (loggingContext s ctx) rpc)
      (TypeName req) in
  let ctx := stoppableContext s ctx in
  relay s ctx req.

Definition ValidateResourceConfig := resourceRPC "ValidateResourceConfig".

Definition UpgradeResourceState := resourceRPC "UpgradeResourceState".

Definition ReadResource := resourceRPC "ReadResource".

Definition PlanResourceChange := resourceRPC "PlanResourceChange".

Definition ApplyResourceChange := resourceRPC "ApplyResourceChange".

Definition ImportResourceState := resourceRPC "ImportResourceState".

(** [func (s *server) Stop(ctx, req)]: besides the log and the result,
    the server as the call leaves it. *)
Definition Stop (s : server) (ctx : logging.Context) (req : Req)
  : server * list logging.Entry * (Ret + Go.error) :=
  let ctx := rpcLoggingContext (loggingContext s ctx) "Stop" in
  let ctx := stoppableContext s ctx in
  let received :=
    tfsdklog.SubsystemTrace ctx tflogSubsystemName "Received request" in
  let served :=
    tfsdklog.SubsystemTrace ctx tflogSubsystemName "Served request" in
  match fromproto req with
  | inr err =>
    (s,
     [received;
      tfsdklog.SubsystemError ctx tflogSubsystemName
        "Error converting request from protobuf" err;
      served], inr err)
  | inl r =>
    let calling :=
      tfsdklog.SubsystemTrace ctx tflogSubsystemName "Calling downstream" in
    match call (downstream s) ctx r with
    | inr err =>
      (s,
       [received; calling;
        tfsdklog.SubsystemError ctx tflogSubsystemName
          "Error from downstream" err;
        served], inr err)
    | inl resp =>
      let called :=
        tfsdklog.SubsystemTrace ctx tflogSubsystemName "Called downstream" in
      let closing :=
        tfsdklog.SubsystemTrace ctx tflogSubsystemName
          "Closing all our contexts" in
      let s := stop s in
      let closedAll :=
        tfsdklog.SubsystemTrace ctx tflogSubsystemName
          "Closed all our contexts" in
      match toproto resp with
      | inr err =>
        (s,
         [received; calling; called; closing; closedAll;
          tfsdklog.SubsystemError ctx tflogSubsystemName
            "Error converting response to protobuf" err;
          served], inr err)
      | inl ret =>
        (s, [received; calling; called; closing; closedAll; served], inl ret)
      end
    end
  end.

End Handlers.

End tf6server.

(** * Properties *)

Import etcd.

(** ** How the store double answers *)

Lemma callError_record ctx r c keys :
  clientv3.callError ctx (clientv3.record r c) keys
  = clientv3.callError ctx c keys.
Proof. reflexivity. Qed.

Lemma callError_healthy c keys :
  clientv3.endpointFailure c = None → "" ∉ keys →
  clientv3.callError Go.Live c keys = None.
Proof.
  intros Hup Hkeys. unfold clientv3.callError; simpl. rewrite Hup.
  by rewrite bool_decide_eq_false_2.
Qed.

Lemma callError_empty_key c keys :
  clientv3.endpointFailure c = None → "" ∈ keys →
  clientv3.callError Go.Live c keys = Some Go.ErrEmptyKey.
Proof.
  intros Hup Hkeys. unfold clientv3.callError; simpl. rewrite Hup.
  by rewrite bool_decide_eq_true_2.
Qed.

Lemma not_empty_twice (k : string) : k ≠ "" → "" ∉ [k; k].
Proof.
  intros Hk. rewrite !not_elem_of_cons. repeat split; try done.
  apply not_elem_of_nil.
Qed.


(** ** The three resource functions, case by case *)

(** The text that [KvResourceCreate] puts in front of an error. *)
Definition createFormat (err : Go.error) : string :=
  match err with
  | Go.Canceled => "ctx is canceled by another routine: "
  | Go.DeadlineExceeded => "ctx is attached with a deadline is exceeded: "
  | Go.ErrEmptyKey => "client-side error: "
  | Go.errorString _ => "bad cluster endpoints, which are not etcd servers: "
  end.

Definition createRequest (k v : string) : clientv3.Request :=
  clientv3.ReqTxn [clientv3.KeyMissing k] [clientv3.OpPut k v].

Definition deleteRequest (k : string) : clientv3.Request :=
  clientv3.ReqTxn [clientv3.KeyExists k] [clientv3.OpDelete k].

Section Cases.

Variables (ctx : Go.Context) (d : schema.ResourceData) (m : apiClient).
Variables (k : string).
Hypothesis Hkey : schema.Get "key" d = schema.Str k.

Let c := Client m.

Lemma create_error v err :
  schema.Get "value" d = schema.Str v →
  clientv3.callError ctx c [k; k] = Some err →
  KvResourceCreate ctx d m
  = Some {| diags := diag.FromErr (Go.Errorf (createFormat err) err);
            data := d;
            meta := {| Client := clientv3.record (createRequest k v) c |} |}.
Proof.
  intros Hvalue Herr. unfold KvResourceCreate, clientv3.Commit.
  rewrite Hkey, Hvalue; simpl. rewrite callError_record.
  fold c. rewrite Herr. by destruct err.
Qed.

Lemma create_put v :
  schema.Get "value" d = schema.Str v →
  clientv3.callError ctx c [k; k] = None →
  clientv3.keyspace c !! k = None →
  KvResourceCreate ctx d m
  = Some {| diags := [];
            data := schema.SetId k d;
            meta := {| Client :=
              clientv3.withKeyspace (<[k := v]> (clientv3.keyspace c))
                (clientv3.record (createRequest k v) c) |} |}.
Proof.
  intros Hvalue Herr Habsent. unfold KvResourceCreate, clientv3.Commit.
  rewrite Hkey, Hvalue; simpl. rewrite callError_record.
  fold c. rewrite Herr. by rewrite bool_decide_eq_true_2.
Qed.

Lemma create_present v old :
  schema.Get "value" d = schema.Str v →
  clientv3.callError ctx c [k; k] = None →
  clientv3.keyspace c !! k = Some old →
  KvResourceCreate ctx d m
  = Some {| diags := [];
            data := schema.SetId k d;
            meta := {| Client := clientv3.record (createRequest k v) c |} |}.
Proof.
  intros Hvalue Herr Hpresent. unfold KvResourceCreate, clientv3.Commit.
  rewrite Hkey, Hvalue; simpl. rewrite callError_record.
  fold c. rewrite Herr. rewrite bool_decide_eq_false_2; [done|].
  by rewrite Hpresent.
Qed.

Lemma read_error err :
  clientv3.callError ctx c [k] = Some err →
  KvResourceRead ctx d m
  = Some {| diags := diag.FromErr err;
            data := d;
            meta := {| Client := clientv3.record (clientv3.ReqGet k) c |} |}.
Proof.
  intros Herr. unfold KvResourceRead, clientv3.Get.
  rewrite Hkey; simpl. rewrite callError_record. fold c. by rewrite Herr.
Qed.

Lemma read_found :
  clientv3.callError ctx c [k] = None →
  KvResourceRead ctx d m
  = Some {| diags := [];
            data := d;
            meta := {| Client := clientv3.record (clientv3.ReqGet k) c |} |}.
Proof.
  intros Herr. unfold KvResourceRead, clientv3.Get.
  rewrite Hkey; simpl. rewrite callError_record. fold c. rewrite Herr.
  unfold schema.Set_. by destruct (schema.types d !! "key") as [[]|].
Qed.

Lemma delete_error err :
  clientv3.callError ctx c [k; k] = Some err →
  KvResourceDelete ctx d m
  = Some {| diags := diag.FromErr err;
            data := d;
            meta := {| Client := clientv3.record (deleteRequest k) c |} |}.
Proof.
  intros Herr. unfold KvResourceDelete, clientv3.Commit.
  rewrite Hkey; simpl. rewrite callError_record. fold c. by rewrite Herr.
Qed.

Lemma delete_present old :
  clientv3.callError ctx c [k; k] = None →
  clientv3.keyspace c !! k = Some old →
  KvResourceDelete ctx d m
  = Some {| diags := [];
            data := schema.SetId "" d;
            meta := {| Client :=
              clientv3.withKeyspace (delete k (clientv3.keyspace c))
                (clientv3.record (deleteRequest k) c) |} |}.
Proof.
  intros Herr Hpresent. unfold KvResourceDelete, clientv3.Commit.
  rewrite Hkey; simpl. rewrite callError_record. fold c. rewrite Herr.
  rewrite bool_decide_eq_true_2; [done|]. by rewrite Hpresent.
Qed.

Lemma delete_absent :
  clientv3.callError ctx c [k; k] = None →
  clientv3.keyspace c !! k = None →
  KvResourceDelete ctx d m
  = Some {| diags := [];
            data := schema.SetId "" d;
            meta := {| Client := clientv3.record (deleteRequest k) c |} |}.
Proof.
  intros Herr Habsent. unfold KvResourceDelete, clientv3.Commit.
  rewrite Hkey; simpl. rewrite callError_record. fold c. rewrite Herr.
  rewrite bool_decide_eq_false_2; [done|]. rewrite Habsent.
  by intros [? ?].
Qed.

End Cases.

(** ** Attributes and identity across the SDK's setters *)

Lemma Get_SetId key v d : schema.Get key (schema.SetId v d) = schema.Get key d.
Proof. reflexivity. Qed.

Lemma Get_Set_ne key key' v d :
  key ≠ key' →
  schema.Get key' (schema.Set_ key v d).1 = schema.Get key' d.
Proof.
  intros Hne. unfold schema.Get, schema.Set_.
  destruct (schema.types d !! key) as [[]|]; try done.
  destruct v; [|done]. simpl. by rewrite lookup_insert_ne.
Qed.

(** ** Create *)

(** Whatever the outcome of the call, [KvResourceCreate] never replaces a
    value that is already stored under the key. *)
Lemma create_never_overwrites ctx d m k v old :
  schema.Get "key" d = schema.Str k →
  schema.Get "value" d = schema.Str v →
  clientv3.keyspace (Client m) !! k = Some old →
  ∃ o, KvResourceCreate ctx d m = Some o
       ∧ clientv3.keyspace (Client (meta o)) = clientv3.keyspace (Client m).
Proof.
  intros Hkey Hvalue Hold.
  destruct (clientv3.callError ctx (Client m) [k; k]) as [err|] eqn:Herr.
  - eexists; split; [by eapply create_error|done].
  - eexists; split; [by eapply create_present|done].
Qed.

(** A create that returns no diagnostic has set the identity to the key. *)
Lemma create_success_sets_identity ctx d m k o :
  schema.Get "key" d = schema.Str k →
  KvResourceCreate ctx d m = Some o →
  diags o = [] →
  schema.Id (data o) = k.
Proof.
  intros Hkey Hrun Hok. unfold KvResourceCreate in Hrun.
  rewrite Hkey in Hrun; simpl in Hrun.
  destruct (schema.assertString (schema.Get "value" d)) as [v|];
    simpl in Hrun; [|done].
  destruct (clientv3.Commit _ _) as [kvc [resp|err]].
  - by simplify_eq.
  - destruct err; simplify_eq; discriminate.
Qed.

(** C1, evaluated on the code: with ["k"] stored as ["v1"], a healthy
    cluster and a live context, [Create("k", "v2")] returns no diagnostic
    at all and sets the identity to ["k"]; the stored value stays
    ["v1"]. The failed condition of the transaction is not surfaced. *)
Theorem create_on_present_key_reports_success :
  ∃ o, KvResourceCreate Go.Live (declared "k" "v2") (connect {[ "k" := "v1" ]})
       = Some o
       ∧ diags o = []
       ∧ schema.Id (data o) = "k"
       ∧ clientv3.keyspace (Client (meta o)) !! "k" = Some "v1".
Proof.
  eexists; split.
  - eapply create_present; reflexivity.
  - done.
Qed.

(** C8, evaluated on the code: with ["x"] stored as ["a"], the transaction
    of [Create("x", "b")] comes back with [Succeeded = false] and no error;
    nothing was put, yet the identity is assigned ["x"]. *)
Theorem create_assigns_identity_without_put :
  let c := connect {[ "x" := "a" ]} in
  (clientv3.Commit
     (clientv3.Then [clientv3.OpPut "x" "b"]
        (clientv3.If [clientv3.KeyMissing "x"] (clientv3.Txn Go.Live)))
     (Client c)).2 = inl {| clientv3.Succeeded := false |}
  ∧ ∃ o, KvResourceCreate Go.Live (declared "x" "b") c = Some o
         ∧ diags o = []
         ∧ schema.Id (declared "x" "b") = ""
         ∧ schema.Id (data o) = "x"
         ∧ clientv3.keyspace (Client (meta o)) = clientv3.keyspace (Client c).
Proof.
  split; [by vm_compute|].
  eexists; split.
  - eapply create_present; reflexivity.
  - done.
Qed.

(** ** Delete *)

(** On a healthy cluster and under a live context, [KvResourceDelete]
    returns no diagnostic whether or not the key is stored, leaves the
    keyspace without the key and clears the identity. *)
Lemma delete_live d m k :
  schema.Get "key" d = schema.Str k → k ≠ "" →
  clientv3.endpointFailure (Client m) = None →
  ∃ o, KvResourceDelete Go.Live d m = Some o
       ∧ diags o = []
       ∧ data o = schema.SetId "" d
       ∧ clientv3.endpointFailure (Client (meta o)) = None
       ∧ clientv3.keyspace (Client (meta o))
         = delete k (clientv3.keyspace (Client m)).
Proof.
  intros Hkey Hk Hup.
  assert (clientv3.callError Go.Live (Client m) [k; k] = None) as Herr
    by (apply callError_healthy; [done | by apply not_empty_twice]).
  destruct (clientv3.keyspace (Client m) !! k) as [old|] eqn:Hold.
  - eexists; split; [by eapply delete_present|done].
  - eexists; split; [by eapply delete_absent|].
    simpl. by rewrite delete_id.
Qed.

(** Whatever the context, [KvResourceDelete] returns, and it leaves the
    attributes and the health of the endpoints as they were. *)
Lemma delete_returns ctx d m k :
  schema.Get "key" d = schema.Str k →
  ∃ o, KvResourceDelete ctx d m = Some o
       ∧ schema.Get "key" (data o) = schema.Str k
       ∧ clientv3.endpointFailure (Client (meta o))
         = clientv3.endpointFailure (Client m).
Proof.
  intros Hkey.
  destruct (clientv3.callError ctx (Client m) [k; k]) as [err|] eqn:Herr.
  - eexists; split; [by eapply delete_error|done].
  - destruct (clientv3.keyspace (Client m) !! k) as [old|] eqn:Hold.
    + eexists; split; [by eapply delete_present|done].
    + eexists; split; [by eapply delete_absent|done].
Qed.

(** C2: [Delete] is idempotent.  For every key, after a first
    [KvResourceDelete] (under any context), a second one on a healthy
    cluster and under a live context returns no diagnostic; the key is
    absent afterwards, and when it was absent already the failed
    transaction changes nothing: a no-op success. *)
Theorem delete_is_idempotent ctx (d : schema.ResourceData) (m : apiClient)
    (k : string) :
  schema.Get "key" d = schema.Str k → k ≠ "" →
  clientv3.endpointFailure (Client m) = None →
  ∃ o1 o2,
    KvResourceDelete ctx d m = Some o1
    ∧ KvResourceDelete Go.Live (data o1) (meta o1) = Some o2
    ∧ diags o2 = []
    ∧ clientv3.keyspace (Client (meta o2)) !! k = None
    ∧ (clientv3.keyspace (Client (meta o1)) !! k = None →
       clientv3.keyspace (Client (meta o2))
       = clientv3.keyspace (Client (meta o1))).
Proof.
  intros Hkey Hk Hup.
  destruct (delete_returns ctx d m k Hkey) as (o1 & Hrun1 & Hkey1 & Hup1).
  rewrite Hup in Hup1.
  destruct (delete_live (data o1) (meta o1) k Hkey1 Hk Hup1)
    as (o2 & Hrun2 & Hok & _ & _ & Hspace).
  exists o1, o2. repeat split; try done.
  - rewrite Hspace. apply lookup_delete_eq.
  - intros Habsent. rewrite Hspace. by apply delete_id.
Qed.

Lemma delete_is_idempotent_witness :
  ∃ o1 o2,
    KvResourceDelete Go.Live (declared "k" "v") (connect {[ "k" := "v" ]})
    = Some o1
    ∧ KvResourceDelete Go.Live (data o1) (meta o1) = Some o2
    ∧ diags o2 = []
    ∧ clientv3.keyspace (Client (meta o2)) !! "k" = None
    ∧ clientv3.keyspace (Client (meta o2))
      = clientv3.keyspace (Client (meta o1)).
Proof.
  destruct (delete_is_idempotent Go.Live (declared "k" "v")
              (connect {[ "k" := "v" ]}) "k")
    as (o1 & o2 & Hrun1 & Hrun2 & Hok & Hgone & Hnoop).
  - reflexivity.
  - discriminate.
  - reflexivity.
  - exists o1, o2. repeat split; try assumption.
    apply Hnoop. vm_compute in Hrun1. injection Hrun1 as <-. reflexivity.
Defined.

(** ** Create, then Read *)



(** ** Read of a key that is not stored *)

(** The reading of C4 that is tested against the code: whenever a read
    finds the key absent, the identity of the resource is cleared. *)
Definition read_drops_absent_resource : Prop :=
  ∀ ctx (d : schema.ResourceData) (m : apiClient) (k : string) o,
    schema.Get "key" d = schema.Str k →
    clientv3.keyspace (Client m) !! k = None →
    KvResourceRead ctx d m = Some o →
    diags o = [] →
    schema.Id (data o) = "".

(** C4 fails on the code: a resource tracked under the identity ["k"]
    whose key is gone from the store is read without any diagnostic and
    keeps its identity. *)
Lemma read_absent_counterexample : ¬ read_drops_absent_resource.
Proof.
  intros Hclaim.
  pose (d := schema.SetId "k" (declared "k" "v")).
  destruct (KvResourceRead Go.Live d (connect ∅)) as [o|] eqn:Hrun;
    [|by vm_compute in Hrun].
  specialize (Hclaim Go.Live d (connect ∅) "k" o eq_refl eq_refl Hrun).
  vm_compute in Hrun. simplify_eq. by specialize (Hclaim eq_refl).
Qed.

(** C4 as amended: when [Read(key)] finds the key absent (healthy cluster,
    live context), it returns no diagnostic and leaves the identity, the
    value attribute and the store as they were: absence is not signalled
    and the identity is not cleared. *)
Theorem read_absent_keeps_identity (d : schema.ResourceData) (m : apiClient)
    (k : string) :
  schema.Get "key" d = schema.Str k → k ≠ "" →
  clientv3.endpointFailure (Client m) = None →
  clientv3.keyspace (Client m) !! k = None →
  ∃ o, KvResourceRead Go.Live d m = Some o
       ∧ diags o = []
       ∧ schema.Id (data o) = schema.Id d
       ∧ schema.Get "value" (data o) = schema.Get "value" d
       ∧ clientv3.keyspace (Client (meta o)) = clientv3.keyspace (Client m).
Proof.
  intros Hkey Hk Hup Habsent.
  eexists; split.
  - eapply read_found; [exact Hkey|].
    apply callError_healthy; [done|]. by rewrite list_elem_of_singleton.
  - done.
Qed.

Lemma read_absent_keeps_identity_witness :
  ∃ o, KvResourceRead Go.Live (schema.SetId "k" (declared "k" "v")) (connect ∅)
       = Some o
       ∧ diags o = []
       ∧ schema.Id (data o) = "k"
       ∧ schema.Get "value" (data o) = schema.Str "v"
       ∧ clientv3.keyspace (Client (meta o)) = ∅.
Proof.
  apply (read_absent_keeps_identity (schema.SetId "k" (declared "k" "v"))
           (connect ∅) "k").
  - reflexivity.
  - discriminate.
  - reflexivity.
  - reflexivity.
Defined.

(** ** Create with an empty key *)

(** The reading of C6 that is tested against the code: a create with an
    empty key hands no request to the store client. *)
Definition empty_key_rejected_before_any_call : Prop :=
  ∀ ctx (d : schema.ResourceData) (m : apiClient) (v : string) o,
    schema.Get "key" d = schema.Str "" →
    schema.Get "value" d = schema.Str v →
    KvResourceCreate ctx d m = Some o →
    clientv3.invoked (Client (meta o)) = clientv3.invoked (Client m).

(** C6 fails on the code: [Create("", "v")] on a fresh connection leaves
    one transaction in the list of requests handed to the client. *)
Lemma empty_key_counterexample : ¬ empty_key_rejected_before_any_call.
Proof.
  intros Hclaim.
  destruct (KvResourceCreate Go.Live (declared "" "v") (connect ∅))
    as [o|] eqn:Hrun; [|by vm_compute in Hrun].
  specialize (Hclaim Go.Live (declared "" "v") (connect ∅) "v" o
                eq_refl eq_refl Hrun).
  vm_compute in Hrun. simplify_eq.
Qed.

(** C6 as amended: for every create with an empty key the reconciler does
    no validation of its own.  It commits the conditional transaction like
    for any other key (exactly one request reaches the client), the call
    fails, the resource data and the store are unchanged, and on a healthy
    cluster under a live context the diagnostic is the "client-side error"
    built from the error that the commit returned. *)
Theorem create_empty_key_goes_through_store ctx (d : schema.ResourceData)
    (m : apiClient) (v : string) :
  schema.Get "key" d = schema.Str "" →
  schema.Get "value" d = schema.Str v →
  ∃ o, KvResourceCreate ctx d m = Some o
       ∧ clientv3.invoked (Client (meta o))
         = (clientv3.invoked (Client m) ++ [createRequest "" v])%list
       ∧ diags o ≠ []
       ∧ data o = d
       ∧ clientv3.keyspace (Client (meta o)) = clientv3.keyspace (Client m)
       ∧ (ctx = Go.Live → clientv3.endpointFailure (Client m) = None →
          diags o
          = diag.FromErr (Go.Errorf "client-side error: " Go.ErrEmptyKey)).
Proof.
  intros Hkey Hvalue.
  destruct (clientv3.callError ctx (Client m) [""; ""]) as [err|] eqn:Herr.
  - eexists; split; [by eapply create_error|].
    repeat split; try done.
    intros -> Hup.
    rewrite callError_empty_key in Herr; [by simplify_eq|done|].
    apply elem_of_cons; by left.
  - exfalso. unfold clientv3.callError in Herr.
    destruct (Go.Err ctx); [done|].
    destruct (clientv3.endpointFailure (Client m)); [done|].
    rewrite bool_decide_eq_true_2 in Herr; [done|].
    apply elem_of_cons; by left.
Qed.

Lemma create_empty_key_goes_through_store_witness :
  ∃ o, KvResourceCreate Go.Live (declared "" "v") (connect ∅) = Some o
       ∧ clientv3.invoked (Client (meta o)) = [createRequest "" "v"]
       ∧ diags o ≠ []
       ∧ data o = declared "" "v"
       ∧ clientv3.keyspace (Client (meta o)) = ∅
       ∧ diags o
         = [ {| diag.severity := diag.Error;
                diag.Summary :=
                  "client-side error: etcdserver: key is not provided" |} ].
Proof.
  destruct (create_empty_key_goes_through_store Go.Live (declared "" "v")
              (connect ∅) "v")
    as (o & Hrun & Hcalls & Hfail & Hdata & Hspace & Htext).
  - reflexivity.
  - reflexivity.
  - exists o. repeat split; try assumption.
    apply Htext; reflexivity.
Defined.

(** ** The diagnostics of a failing create *)

(** The error, if any, with which the transaction of a create comes
    back. *)
Definition createError (ctx : Go.Context) (d : schema.ResourceData)
    (m : apiClient) : option Go.error :=
  key ← schema.assertString (schema.Get "key" d);
  value ← schema.assertString (schema.Get "value" d);
  match (clientv3.Commit
           (clientv3.Then [clientv3.OpPut key value]
              (clientv3.If [clientv3.KeyMissing key] (clientv3.Txn ctx)))
           (Client m)).2 with
  | inr err => Some err
  | inl _ => None
  end.

Lemma assertString_Some v s : schema.assertString v = Some s → v = schema.Str s.
Proof. destruct v; simpl; congruence. Qed.

Lemma createError_inv ctx d m err :
  createError ctx d m = Some err →
  ∃ k v, schema.Get "key" d = schema.Str k
         ∧ schema.Get "value" d = schema.Str v
         ∧ clientv3.callError ctx (Client m) [k; k] = Some err.
Proof.
  unfold createError. intros H.
  destruct (schema.assertString (schema.Get "key" d)) as [k|] eqn:Hk;
    [|done].
  destruct (schema.assertString (schema.Get "value" d)) as [v|] eqn:Hv;
    [|done].
  simpl in H. exists k, v.
  split; [by apply assertString_Some|]. split; [by apply assertString_Some|].
  unfold clientv3.Commit in H. simpl in H. rewrite callError_record in H.
  destruct (clientv3.callError ctx (Client m) [k; k]) as [e|]; simpl in H.
  - congruence.
  - by destruct (bool_decide _).
Qed.

(** The texts that [KvResourceCreate] reports for errors of different
    classes are different, whatever the errors' own messages are. *)
Lemma create_texts_distinct err1 err2 :
  taxonomy.classify err1 ≠ taxonomy.classify err2 →
  Go.Errorf (createFormat err1) err1 ≠ Go.Errorf (createFormat err2) err2.
Proof.
  intros Hclass Heq. unfold Go.Errorf in Heq.
  destruct err1, err2; simpl in *; try congruence;
    injection Heq; intros; discriminate.
Qed.

(** C5: every failing [Create] reports one error diagnostic whose text
    starts with the phrase of the class of the failure (context cancelled,
    deadline exceeded, client-side error for the empty key, bad cluster
    endpoints for everything else), and two failing creates whose failures
    are of different classes never report the same diagnostic. *)
Theorem create_failures_are_distinguished ctx1 ctx2
    (d1 d2 : schema.ResourceData) (m1 m2 : apiClient) (err1 err2 : Go.error) :
  createError ctx1 d1 m1 = Some err1 →
  createError ctx2 d2 m2 = Some err2 →
  ∃ o1 o2,
    KvResourceCreate ctx1 d1 m1 = Some o1
    ∧ KvResourceCreate ctx2 d2 m2 = Some o2
    ∧ diags o1
      = [ {| diag.severity := diag.Error;
             diag.Summary :=
               match taxonomy.classify err1 with
               | taxonomy.ClientCancelled =>
                 "ctx is canceled by another routine: "
               | taxonomy.DeadlineExceeded =>
                 "ctx is attached with a deadline is exceeded: "
               | taxonomy.InvalidInput => "client-side error: "
               | _ => "bad cluster endpoints, which are not etcd servers: "
               end +:+ Go.Error err1 |} ]
    ∧ diags o2 = diag.FromErr (Go.Errorf (createFormat err2) err2)
    ∧ (taxonomy.classify err1 ≠ taxonomy.classify err2 → diags o1 ≠ diags o2).
Proof.
  intros H1 H2.
  destruct (createError_inv _ _ _ _ H1) as (k1 & v1 & Hk1 & Hv1 & He1).
  destruct (createError_inv _ _ _ _ H2) as (k2 & v2 & Hk2 & Hv2 & He2).
  eexists; eexists.
  split; [by eapply create_error|]. split; [by eapply create_error|].
  cbn [diags]. split; [by destruct err1|]. split; [done|].
  intros Hclass Heq. apply (create_texts_distinct _ _ Hclass).
  unfold diag.FromErr in Heq. unfold Go.Errorf. simpl in Heq. congruence.
Qed.

Lemma create_failures_are_distinguished_witness :
  ∃ o1 o2,
    KvResourceCreate Go.Cancelled (declared "k" "v") (connect ∅) = Some o1
    ∧ KvResourceCreate Go.Live (declared "" "v") (connect ∅) = Some o2
    ∧ diags o1
      = [ {| diag.severity := diag.Error;
             diag.Summary :=
               "ctx is canceled by another routine: context canceled" |} ]
    ∧ diags o2
      = [ {| diag.severity := diag.Error;
             diag.Summary :=
               "client-side error: etcdserver: key is not provided" |} ]
    ∧ diags o1 ≠ diags o2.
Proof.
  destruct (create_failures_are_distinguished Go.Cancelled Go.Live
              (declared "k" "v") (declared "" "v") (connect ∅) (connect ∅)
              Go.Canceled Go.ErrEmptyKey)
    as (o1 & o2 & Hrun1 & Hrun2 & Htext1 & Htext2 & Hdiff).
  - reflexivity.
  - reflexivity.
  - exists o1, o2. repeat split; try assumption.
    apply Hdiff. discriminate.
Defined.

(** ** Cancellation and deadlines *)

(** A resource function distinguishes the two signals when, run under a
    cancelled and under an expired context, it returns in both cases one
    error diagnostic that ends in the text of the signal that triggered,
    and the two diagnostics differ. *)
Definition distinguishes (run : Go.Context → option Outcome) : Prop :=
  ∃ oc oe pc pe,
    run Go.Cancelled = Some oc
    ∧ run Go.Expired = Some oe
    ∧ diags oc = [ {| diag.severity := diag.Error;
                      diag.Summary := pc +:+ Go.Error Go.Canceled |} ]
    ∧ diags oe = [ {| diag.severity := diag.Error;
                      diag.Summary := pe +:+ Go.Error Go.DeadlineExceeded |} ]
    ∧ diags oc ≠ diags oe.

(** C9: create, read and delete alike surface a cancelled context and an
    exceeded deadline as two different error diagnostics, each naming its
    own condition. *)
Theorem cancellation_is_distinguished (d : schema.ResourceData)
    (m : apiClient) (k v : string) :
  schema.Get "key" d = schema.Str k →
  schema.Get "value" d = schema.Str v →
  distinguishes (λ ctx, KvResourceCreate ctx d m)
  ∧ distinguishes (λ ctx, KvResourceRead ctx d m)
  ∧ distinguishes (λ ctx, KvResourceDelete ctx d m).
Proof.
  intros Hkey Hvalue. repeat split.
  - eexists; eexists.
    exists "ctx is canceled by another routine: ".
    exists "ctx is attached with a deadline is exceeded: ".
    split; [by eapply (create_error _ _ _ _ Hkey v Go.Canceled)|].
    split; [by eapply (create_error _ _ _ _ Hkey v Go.DeadlineExceeded)|].
    done.
  - eexists; eexists. exists "", "".
    split; [by eapply (read_error _ _ _ _ Hkey Go.Canceled)|].
    split; [by eapply (read_error _ _ _ _ Hkey Go.DeadlineExceeded)|].
    done.
  - eexists; eexists. exists "", "".
    split; [by eapply (delete_error _ _ _ _ Hkey Go.Canceled)|].
    split; [by eapply (delete_error _ _ _ _ Hkey Go.DeadlineExceeded)|].
    done.
Qed.

Lemma cancellation_is_distinguished_witness :
  distinguishes (λ ctx, KvResourceCreate ctx (declared "k" "v") (connect ∅))
  ∧ distinguishes (λ ctx, KvResourceRead ctx (declared "k" "v") (connect ∅))
  ∧ distinguishes (λ ctx, KvResourceDelete ctx (declared "k" "v") (connect ∅)).
Proof.
  apply (cancellation_is_distinguished (declared "k" "v") (connect ∅) "k" "v").
  - reflexivity.
  - reflexivity.
Defined.

(** ** What a successful read changes *)





(** ** The password policy of the user resource *)

(** C7: a password of at most 9 characters makes the user [Create] fail as
    invalid input without any request reaching the store client (the
    client is returned exactly as it was passed) and without an identity;
    a password of more than 9 characters passes validation. *)
Theorem short_password_rejected_before_any_call ctx (username password : string)
    (c : clientv3.Client) :
  ((String.length password ≤ 9)%nat →
     user.failure (user.Create ctx username password c)
     = Some taxonomy.InvalidInput
     ∧ user.client (user.Create ctx username password c) = c
     ∧ clientv3.invoked (user.client (user.Create ctx username password c))
       = clientv3.invoked c
     ∧ user.identity (user.Create ctx username password c) = "")
  ∧ ((9 < String.length password)%nat →
     user.Validate password = None
     ∧ clientv3.invoked (user.client (user.Create ctx username password c))
       = (clientv3.invoked c
          ++ [clientv3.ReqUserAdd username password])%list).
Proof.
  split.
  - intros Hshort. unfold user.Create, user.Validate.
    by rewrite bool_decide_eq_true_2.
  - intros Hlong. unfold user.Create, user.Validate.
    rewrite bool_decide_eq_false_2 by lia. split; [done|].
    unfold user.createUser.
    destruct (clientv3.callError _ _ _); [done|].
    by destruct (clientv3.accounts _ !! _).
Qed.

Lemma short_password_rejected_before_any_call_witness :
  (user.failure (user.Create Go.Live "passbase" "password" (Client (connect ∅)))
   = Some taxonomy.InvalidInput
   ∧ clientv3.invoked
       (user.client
          (user.Create Go.Live "passbase" "password" (Client (connect ∅))))
     = [])
  ∧ user.Validate "longpassword" = None.
Proof.
  split.
  - destruct (short_password_rejected_before_any_call Go.Live "passbase"
                "password" (Client (connect ∅))) as [Hshort _].
    destruct Hshort as (Hfail & _ & Hcalls & _).
    + simpl. lia.
    + split; [exact Hfail | exact Hcalls].
  - destruct (short_password_rejected_before_any_call Go.Live "passbase"
                "longpassword" (Client (connect ∅))) as [_ Hlong].
    destruct Hlong as [Hvalid _].
    + simpl. lia.
    + exact Hvalid.
Defined.

(** * Further properties of the key/value resource *)

(** How each function runs once the key attribute is known: every case
    of the function, in one statement. *)
Lemma create_cases ctx d m k v :
  schema.Get "key" d = schema.Str k →
  schema.Get "value" d = schema.Str v →
  ∃ o, KvResourceCreate ctx d m = Some o
       ∧ clientv3.invoked (Client (meta o))
         = (clientv3.invoked (Client m) ++ [createRequest k v])%list
       ∧ clientv3.accounts (Client (meta o)) = clientv3.accounts (Client m)
       ∧ clientv3.endpointFailure (Client (meta o))
         = clientv3.endpointFailure (Client m)
       ∧ ((diags o ≠ [] ∧ data o = d
           ∧ clientv3.keyspace (Client (meta o))
             = clientv3.keyspace (Client m))
          ∨ (diags o = [] ∧ data o = schema.SetId k d
             ∧ clientv3.keyspace (Client m) !! k = None
             ∧ clientv3.keyspace (Client (meta o))
               = <[k := v]> (clientv3.keyspace (Client m)))
          ∨ (diags o = [] ∧ data o = schema.SetId k d
             ∧ is_Some (clientv3.keyspace (Client m) !! k)
             ∧ clientv3.keyspace (Client (meta o))
               = clientv3.keyspace (Client m))).
Proof.
  intros Hkey Hvalue.
  destruct (clientv3.callError ctx (Client m) [k; k]) as [err|] eqn:Herr.
  - eexists; split; [by eapply create_error|].
    repeat split; try done. left. by destruct err.
  - destruct (clientv3.keyspace (Client m) !! k) as [old|] eqn:Hold.
    + eexists; split; [by eapply create_present|].
      repeat split; try done. right; right. by repeat split.
    + eexists; split; [by eapply create_put|].
      repeat split; try done. right; left. done.
Qed.

Lemma read_cases ctx d m k :
  schema.Get "key" d = schema.Str k →
  ∃ o, KvResourceRead ctx d m = Some o
       ∧ meta o = {| Client := clientv3.record (clientv3.ReqGet k) (Client m) |}
       ∧ data o = d
       ∧ (diags o ≠ [] ∨ diags o = []).
Proof.
  intros Hkey.
  destruct (clientv3.callError ctx (Client m) [k]) as [err|] eqn:Herr.
  - eexists; split; [by eapply read_error|]. repeat split. by left.
  - eexists; split; [by eapply read_found|]. repeat split. by right.
Qed.

Lemma delete_cases ctx d m k :
  schema.Get "key" d = schema.Str k →
  ∃ o, KvResourceDelete ctx d m = Some o
       ∧ clientv3.invoked (Client (meta o))
         = (clientv3.invoked (Client m) ++ [deleteRequest k])%list
       ∧ clientv3.accounts (Client (meta o)) = clientv3.accounts (Client m)
       ∧ clientv3.endpointFailure (Client (meta o))
         = clientv3.endpointFailure (Client m)
       ∧ ((diags o ≠ [] ∧ data o = d
           ∧ clientv3.keyspace (Client (meta o))
             = clientv3.keyspace (Client m))
          ∨ (diags o = [] ∧ data o = schema.SetId "" d
             ∧ clientv3.keyspace (Client (meta o))
               = delete k (clientv3.keyspace (Client m)))).
Proof.
  intros Hkey.
  destruct (clientv3.callError ctx (Client m) [k; k]) as [err|] eqn:Herr.
  - eexists; split; [by eapply delete_error|].
    repeat split; try done. by left.
  - destruct (clientv3.keyspace (Client m) !! k) as [old|] eqn:Hold.
    + eexists; split; [by eapply delete_present|].
      repeat split; try done. by right.
    + eexists; split; [by eapply delete_absent|].
      repeat split; try done. right. repeat split; try done.
      simpl. by rewrite delete_id.
Qed.

(** Each resource function hands exactly one request to the store client,
    whatever the context and the state of the cluster: create its
    conditional put, read its get, delete its conditional delete.  None of
    them touches the user accounts or the endpoints. *)
Theorem each_call_issues_one_request ctx (d : schema.ResourceData)
    (m : apiClient) (k v : string) :
  schema.Get "key" d = schema.Str k →
  schema.Get "value" d = schema.Str v →
  ∃ oc or od,
    KvResourceCreate ctx d m = Some oc
    ∧ KvResourceRead ctx d m = Some or
    ∧ KvResourceDelete ctx d m = Some od
    ∧ clientv3.invoked (Client (meta oc))
      = (clientv3.invoked (Client m)
         ++ [clientv3.ReqTxn [clientv3.KeyMissing k] [clientv3.OpPut k v]])%list
    ∧ clientv3.invoked (Client (meta or))
      = (clientv3.invoked (Client m) ++ [clientv3.ReqGet k])%list
    ∧ clientv3.invoked (Client (meta od))
      = (clientv3.invoked (Client m)
         ++ [clientv3.ReqTxn [clientv3.KeyExists k] [clientv3.OpDelete k]])%list
    ∧ Forall (λ o, clientv3.accounts (Client (meta o))
                   = clientv3.accounts (Client m)
                   ∧ clientv3.endpointFailure (Client (meta o))
                     = clientv3.endpointFailure (Client m))
        [oc; or; od].
Proof.
  intros Hkey Hvalue.
  destruct (create_cases ctx d m k v Hkey Hvalue)
    as (oc & Hc & Hci & Hca & Hce & _).
  destruct (read_cases ctx d m k Hkey) as (or & Hr & Hrm & _).
  destruct (delete_cases ctx d m k Hkey) as (od & Hd & Hdi & Hda & Hde & _).
  exists oc, or, od. repeat split; try done.
  - by rewrite Hrm.
  - repeat constructor; try done; by rewrite Hrm.
Qed.

Lemma each_call_issues_one_request_witness :
  ∃ oc or od,
    KvResourceCreate Go.Expired (declared "k" "v") (connect ∅) = Some oc
    ∧ KvResourceRead Go.Expired (declared "k" "v") (connect ∅) = Some or
    ∧ KvResourceDelete Go.Expired (declared "k" "v") (connect ∅) = Some od
    ∧ clientv3.invoked (Client (meta oc))
      = [clientv3.ReqTxn [clientv3.KeyMissing "k"] [clientv3.OpPut "k" "v"]]
    ∧ clientv3.invoked (Client (meta or)) = [clientv3.ReqGet "k"]
    ∧ clientv3.invoked (Client (meta od))
      = [clientv3.ReqTxn [clientv3.KeyExists "k"] [clientv3.OpDelete "k"]]
    ∧ Forall (λ o, clientv3.accounts (Client (meta o)) = ∅
                   ∧ clientv3.endpointFailure (Client (meta o)) = None)
        [oc; or; od].
Proof.
  apply (each_call_issues_one_request Go.Expired (declared "k" "v")
           (connect ∅) "k" "v").
  - reflexivity.
  - reflexivity.
Defined.

(** A resource function that returns a diagnostic has left the resource
    data exactly as it was: a failing create assigns no identity, a
    failing read writes no attribute, a failing delete keeps the
    identity. *)
Theorem failing_call_leaves_resource_data ctx (d : schema.ResourceData)
    (m : apiClient) (o : Outcome) :
  KvResourceCreate ctx d m = Some o
  ∨ KvResourceRead ctx d m = Some o
  ∨ KvResourceDelete ctx d m = Some o →
  diags o ≠ [] →
  data o = d.
Proof.
  intros Hrun Hfail.
  assert (∃ k, schema.Get "key" d = schema.Str k) as [k Hkey].
  { destruct (schema.assertString (schema.Get "key" d)) as [k|] eqn:Hk.
    - exists k. by apply assertString_Some.
    - unfold KvResourceCreate, KvResourceRead, KvResourceDelete in Hrun.
      rewrite Hk in Hrun. simpl in Hrun.
      by destruct Hrun as [?|[?|?]]. }
  destruct Hrun as [Hrun|[Hrun|Hrun]].
  - assert (∃ v, schema.Get "value" d = schema.Str v) as [v Hvalue].
    { destruct (schema.assertString (schema.Get "value" d)) as [v|] eqn:Hv.
      - exists v. by apply assertString_Some.
      - unfold KvResourceCreate in Hrun. rewrite Hv in Hrun.
        by destruct (schema.assertString (schema.Get "key" d)). }
    destruct (create_cases ctx d m k v Hkey Hvalue)
      as (o' & Hrun' & _ & _ & _ & Hcases).
    rewrite Hrun in Hrun'. injection Hrun' as <-.
    by destruct Hcases as [(_ & Hd & _)|[(Hok & _)|(Hok & _)]].
  - destruct (read_cases ctx d m k Hkey) as (o' & Hrun' & _ & Hdata & _).
    rewrite Hrun in Hrun'. by injection Hrun' as <-.
  - destruct (delete_cases ctx d m k Hkey)
      as (o' & Hrun' & _ & _ & _ & Hcases).
    rewrite Hrun in Hrun'. injection Hrun' as <-.
    by destruct Hcases as [(_ & Hd & _)|(Hok & _)].
Qed.

Lemma failing_call_leaves_resource_data_witness :
  data {| diags := diag.FromErr Go.Canceled;
          data := schema.SetId "k" (declared "k" "v");
          meta := {| Client := clientv3.record (deleteRequest "k")
                                 (Client (connect {[ "k" := "v" ]})) |} |}
  = schema.SetId "k" (declared "k" "v").
Proof.
  apply (failing_call_leaves_resource_data Go.Cancelled
           (schema.SetId "k" (declared "k" "v"))
           (connect {[ "k" := "v" ]})).
  - right; right. reflexivity.
  - discriminate.
Defined.

(** [KvResourceRead] is read-only on the store and on the identity:
    whatever it returns, the keyspace and the identity are as before, and
    the only attribute it can change is ["key"]. *)
Theorem read_changes_only_the_key_attribute ctx (d : schema.ResourceData)
    (m : apiClient) (o : Outcome) :
  KvResourceRead ctx d m = Some o →
  clientv3.keyspace (Client (meta o)) = clientv3.keyspace (Client m)
  ∧ schema.Id (data o) = schema.Id d
  ∧ ∀ name, name ≠ "key" → schema.Get name (data o) = schema.Get name d.
Proof.
  intros Hrun.
  assert (∃ k, schema.Get "key" d = schema.Str k) as [k Hkey].
  { destruct (schema.assertString (schema.Get "key" d)) as [k|] eqn:Hk.
    - exists k. by apply assertString_Some.
    - unfold KvResourceRead in Hrun. by rewrite Hk in Hrun. }
  destruct (read_cases ctx d m k Hkey) as (o' & Hrun' & Hmeta & Hdata & _).
  rewrite Hrun in Hrun'. injection Hrun' as <-. by rewrite Hmeta, Hdata.
Qed.

Lemma read_changes_only_the_key_attribute_witness :
  clientv3.keyspace
    (clientv3.record (clientv3.ReqGet "k") (Client (connect {[ "k" := "w" ]})))
  = clientv3.keyspace (Client (connect {[ "k" := "w" ]}))
  ∧ schema.Id (schema.SetId "k" (declared "k" "v")) = "k"
  ∧ schema.Get "value" (schema.SetId "k" (declared "k" "v"))
    = schema.Str "v".
Proof.
  destruct (read_changes_only_the_key_attribute Go.Live
              (schema.SetId "k" (declared "k" "v"))
              (connect {[ "k" := "w" ]})
              {| diags := [];
                 data := schema.SetId "k" (declared "k" "v");
                 meta := {| Client := clientv3.record (clientv3.ReqGet "k")
                                        (Client (connect {[ "k" := "w" ]})) |} |})
    as (Hspace & Hid & Hother).
  - reflexivity.
  - split; [exact Hspace|]. split; [exact Hid|].
    apply (Hother "value"). discriminate.
Defined.

(** [KvResourceCreate] and [KvResourceDelete] only ever affect the key
    they are given: what is stored under any other key is the same after
    the call, whatever the outcome. *)
Theorem create_delete_touch_only_their_key ctx (d : schema.ResourceData)
    (m : apiClient) (k k' : string) (o : Outcome) :
  schema.Get "key" d = schema.Str k →
  KvResourceCreate ctx d m = Some o ∨ KvResourceDelete ctx d m = Some o →
  k' ≠ k →
  clientv3.keyspace (Client (meta o)) !! k'
  = clientv3.keyspace (Client m) !! k'.
Proof.
  intros Hkey Hrun Hne. destruct Hrun as [Hrun|Hrun].
  - assert (∃ v, schema.Get "value" d = schema.Str v) as [v Hvalue].
    { destruct (schema.assertString (schema.Get "value" d)) as [v|] eqn:Hv.
      - exists v. by apply assertString_Some.
      - unfold KvResourceCreate in Hrun. rewrite Hv in Hrun.
        by destruct (schema.assertString (schema.Get "key" d)). }
    destruct (create_cases ctx d m k v Hkey Hvalue)
      as (o' & Hrun' & _ & _ & _ & Hcases).
    rewrite Hrun in Hrun'. injection Hrun' as <-.
    destruct Hcases as [(_ & _ & ->)|[(_ & _ & _ & ->)|(_ & _ & _ & ->)]];
      try done.
    by rewrite lookup_insert_ne.
  - destruct (delete_cases ctx d m k Hkey)
      as (o' & Hrun' & _ & _ & _ & Hcases).
    rewrite Hrun in Hrun'. injection Hrun' as <-.
    destruct Hcases as [(_ & _ & ->)|(_ & _ & ->)]; try done.
    by rewrite lookup_delete_ne.
Qed.

Lemma create_delete_touch_only_their_key_witness :
  clientv3.keyspace
    (clientv3.withKeyspace (delete "k" {[ "k" := "v"; "other" := "w" ]})
       (clientv3.record (deleteRequest "k")
          (Client (connect {[ "k" := "v"; "other" := "w" ]})))) !! "other"
  = clientv3.keyspace (Client (connect {[ "k" := "v"; "other" := "w" ]}))
      !! "other".
Proof.
  apply (create_delete_touch_only_their_key Go.Live (declared "k" "v")
           (connect {[ "k" := "v"; "other" := "w" ]}) "k" "other"
           {| diags := [];
              data := schema.SetId "" (declared "k" "v");
              meta := {| Client :=
                clientv3.withKeyspace
                  (delete "k" {[ "k" := "v"; "other" := "w" ]})
                  (clientv3.record (deleteRequest "k")
                     (Client (connect {[ "k" := "v"; "other" := "w" ]}))) |} |}).
  - reflexivity.
  - right. reflexivity.
  - discriminate.
Defined.

(** Create followed by delete is a round trip on the store: for a key
    that was not stored (healthy cluster, live context) both calls return
    no diagnostic, the keyspace is again what it was, the identity is
    cleared and the attributes are untouched. *)
Theorem create_then_delete_restores_store (d : schema.ResourceData)
    (m : apiClient) (k v : string) :
  schema.Get "key" d = schema.Str k →
  schema.Get "value" d = schema.Str v →
  k ≠ "" →
  clientv3.endpointFailure (Client m) = None →
  clientv3.keyspace (Client m) !! k = None →
  ∃ o1 o2,
    KvResourceCreate Go.Live d m = Some o1
    ∧ diags o1 = []
    ∧ schema.Id (data o1) = k
    ∧ KvResourceDelete Go.Live (data o1) (meta o1) = Some o2
    ∧ diags o2 = []
    ∧ schema.Id (data o2) = ""
    ∧ schema.attributes (data o2) = schema.attributes d
    ∧ clientv3.keyspace (Client (meta o2)) = clientv3.keyspace (Client m).
Proof.
  intros Hkey Hvalue Hk Hup Habsent.
  assert (clientv3.callError Go.Live (Client m) [k; k] = None) as Herr
    by (apply callError_healthy; [done | by apply not_empty_twice]).
  eexists. 
  destruct (delete_live (schema.SetId k d)
              {| Client :=
                   clientv3.withKeyspace (<[k := v]> (clientv3.keyspace (Client m)))
                     (clientv3.record (createRequest k v) (Client m)) |} k)
    as (o2 & Hrun2 & Hok2 & Hdata2 & _ & Hspace2); [done..|].
  exists o2. split; [by eapply create_put|].
  cbn [diags data meta]. repeat split; try done.
  - by rewrite Hdata2.
  - by rewrite Hdata2.
  - rewrite Hspace2. cbn [Client clientv3.keyspace clientv3.withKeyspace].
    rewrite delete_insert_eq. by apply delete_id.
Qed.

Lemma create_then_delete_restores_store_witness :
  ∃ o1 o2,
    KvResourceCreate Go.Live (declared "k" "v") (connect {[ "a" := "b" ]})
    = Some o1
    ∧ diags o1 = []
    ∧ schema.Id (data o1) = "k"
    ∧ KvResourceDelete Go.Live (data o1) (meta o1) = Some o2
    ∧ diags o2 = []
    ∧ schema.Id (data o2) = ""
    ∧ schema.attributes (data o2) = schema.attributes (declared "k" "v")
    ∧ clientv3.keyspace (Client (meta o2))
      = clientv3.keyspace (Client (connect {[ "a" := "b" ]})).
Proof.
  apply (create_then_delete_restores_store (declared "k" "v")
           (connect {[ "a" := "b" ]}) "k" "v").
  - reflexivity.
  - reflexivity.
  - discriminate.
  - reflexivity.
  - reflexivity.
Defined.

(** A delete that returns no diagnostic has cleared the identity and left
    the key absent from the store; the attributes are untouched. *)
Theorem delete_success_postcondition ctx (d : schema.ResourceData)
    (m : apiClient) (k : string) (o : Outcome) :
  schema.Get "key" d = schema.Str k →
  KvResourceDelete ctx d m = Some o →
  diags o = [] →
  schema.Id (data o) = ""
  ∧ schema.attributes (data o) = schema.attributes d
  ∧ clientv3.keyspace (Client (meta o)) !! k = None.
Proof.
  intros Hkey Hrun Hok.
  destruct (delete_cases ctx d m k Hkey) as (o' & Hrun' & _ & _ & _ & Hcases).
  rewrite Hrun in Hrun'. injection Hrun' as <-.
  destruct Hcases as [(Hfail & _)|(_ & -> & ->)]; [done|].
  repeat split; try done. apply lookup_delete_eq.
Qed.

Lemma delete_success_postcondition_witness :
  schema.Id (schema.SetId "" (schema.SetId "k" (declared "k" "v"))) = ""
  ∧ schema.attributes (schema.SetId "" (schema.SetId "k" (declared "k" "v")))
    = schema.attributes (schema.SetId "k" (declared "k" "v"))
  ∧ clientv3.keyspace
      (clientv3.withKeyspace (delete "k" {[ "k" := "v" ]})
         (clientv3.record (deleteRequest "k")
            (Client (connect {[ "k" := "v" ]})))) !! "k" = None.
Proof.
  apply (delete_success_postcondition Go.Live
           (schema.SetId "k" (declared "k" "v"))
           (connect {[ "k" := "v" ]}) "k"
           {| diags := [];
              data := schema.SetId "" (schema.SetId "k" (declared "k" "v"));
              meta := {| Client :=
                clientv3.withKeyspace (delete "k" {[ "k" := "v" ]})
                  (clientv3.record (deleteRequest "k")
                     (Client (connect {[ "k" := "v" ]}))) |} |}).
  - reflexivity.
  - reflexivity.
  - reflexivity.
Defined.

(** After a create that returns no diagnostic the key is stored: with the
    declared value when the key was absent before the call, and with the
    value it already had otherwise.  The identity is the key and the
    attributes are untouched. *)
Theorem create_success_postcondition ctx (d : schema.ResourceData)
    (m : apiClient) (k v : string) (o : Outcome) :
  schema.Get "key" d = schema.Str k →
  schema.Get "value" d = schema.Str v →
  KvResourceCreate ctx d m = Some o →
  diags o = [] →
  schema.Id (data o) = k
  ∧ schema.attributes (data o) = schema.attributes d
  ∧ clientv3.keyspace (Client (meta o)) !! k
    = Some (default v (clientv3.keyspace (Client m) !! k)).
Proof.
  intros Hkey Hvalue Hrun Hok.
  destruct (create_cases ctx d m k v Hkey Hvalue)
    as (o' & Hrun' & _ & _ & _ & Hcases).
  rewrite Hrun in Hrun'. injection Hrun' as <-.
  destruct Hcases
    as [(Hfail & _)|[(_ & -> & Habsent & ->)|(_ & -> & [old Hold] & ->)]];
    [done|..]; repeat split; try done.
  - by rewrite lookup_insert_eq, Habsent.
  - by rewrite Hold.
Qed.

Lemma create_success_postcondition_witness :
  schema.Id (schema.SetId "k" (declared "k" "v2")) = "k"
  ∧ schema.attributes (schema.SetId "k" (declared "k" "v2"))
    = schema.attributes (declared "k" "v2")
  ∧ clientv3.keyspace
      (clientv3.record (createRequest "k" "v2")
         (Client (connect {[ "k" := "v1" ]}))) !! "k"
    = Some (default "v2"
              (clientv3.keyspace (Client (connect {[ "k" := "v1" ]})) !! "k")).
Proof.
  apply (create_success_postcondition Go.Live (declared "k" "v2")
           (connect {[ "k" := "v1" ]}) "k" "v2"
           {| diags := [];
              data := schema.SetId "k" (declared "k" "v2");
              meta := {| Client :=
                clientv3.record (createRequest "k" "v2")
                  (Client (connect {[ "k" := "v1" ]})) |} |}).
  - reflexivity.
  - reflexivity.
  - reflexivity.
  - reflexivity.
Defined.

(** The resource functions keep the resource data within the schema that
    [KvResource] declares: when every attribute of the data they are given
    is declared there, so is every attribute of the data they leave. *)
Theorem resource_data_stays_within_schema ctx (d : schema.ResourceData)
    (m : apiClient) (o : Outcome) :
  (∀ name, is_Some (schema.attributes d !! name) →
           is_Some (kvschema.Schema_ kvschema.KvResource !! name)) →
  KvResourceCreate ctx d m = Some o
  ∨ KvResourceRead ctx d m = Some o
  ∨ KvResourceDelete ctx d m = Some o →
  ∀ name, is_Some (schema.attributes (data o) !! name) →
          is_Some (kvschema.Schema_ kvschema.KvResource !! name).
Proof.
  intros Hin Hrun name.
  assert (∃ k, schema.Get "key" d = schema.Str k) as [k Hkey].
  { destruct (schema.assertString (schema.Get "key" d)) as [k|] eqn:Hk.
    - exists k. by apply assertString_Some.
    - unfold KvResourceCreate, KvResourceRead, KvResourceDelete in Hrun.
      rewrite Hk in Hrun. simpl in Hrun.
      by destruct Hrun as [?|[?|?]]. }
  destruct Hrun as [Hrun|[Hrun|Hrun]].
  - assert (∃ v, schema.Get "value" d = schema.Str v) as [v Hvalue].
    { destruct (schema.assertString (schema.Get "value" d)) as [v|] eqn:Hv.
      - exists v. by apply assertString_Some.
      - unfold KvResourceCreate in Hrun. rewrite Hv in Hrun.
        by destruct (schema.assertString (schema.Get "key" d)). }
    destruct (create_cases ctx d m k v Hkey Hvalue)
      as (o' & Hrun' & _ & _ & _ & Hcases).
    rewrite Hrun in Hrun'. injection Hrun' as <-.
    destruct Hcases as [(_ & -> & _)|[(_ & -> & _)|(_ & -> & _)]];
      apply Hin.
  - destruct (read_cases ctx d m k Hkey) as (o' & Hrun' & _ & Hdata & _).
    rewrite Hrun in Hrun'. injection Hrun' as <-. rewrite Hdata. apply Hin.
  - destruct (delete_cases ctx d m k Hkey)
      as (o' & Hrun' & _ & _ & _ & Hcases).
    rewrite Hrun in Hrun'. injection Hrun' as <-.
    destruct Hcases as [(_ & -> & _)|(_ & -> & _)]; apply Hin.
Qed.

Lemma declared_within_schema k v name :
  is_Some (schema.attributes (declared k v) !! name) →
  is_Some (kvschema.Schema_ kvschema.KvResource !! name).
Proof.
  unfold declared; cbn [schema.attributes].
  destruct (decide (name = "key")) as [->|Hkey]; [intros _; by eexists|].
  destruct (decide (name = "value")) as [->|Hvalue]; [intros _; by eexists|].
  rewrite lookup_insert_ne by done. rewrite lookup_singleton_ne by done.
  by intros [? ?].
Qed.

Lemma resource_data_stays_within_schema_witness :
  is_Some (schema.attributes (schema.SetId "k" (declared "k" "v")) !! "key")
  ∧ is_Some (kvschema.Schema_ kvschema.KvResource !! "key").
Proof.
  assert (is_Some (schema.attributes (schema.SetId "k" (declared "k" "v"))
                   !! "key")) as Hset by (by eexists).
  split; [exact Hset|].
  apply (resource_data_stays_within_schema Go.Live (declared "k" "v")
           (connect ∅)
           {| diags := [];
              data := schema.SetId "k" (declared "k" "v");
              meta := {| Client :=
                clientv3.withKeyspace (<["k" := "v"]> ∅)
                  (clientv3.record (createRequest "k" "v")
                     (Client (connect ∅))) |} |}).
  - apply declared_within_schema.
  - left. reflexivity.
  - exact Hset.
Defined.

(** * Properties of package tf6server *)

(** ** Names of logging environment variables *)

(** The characters that the documentation of [WithLogEnvVarName] allows:
    letters, digits and the hyphen. *)
Definition allowedInName : list ascii :=
  String.list_ascii_of_string
    "abcdefghijklmnopqrstuvwxyzABCDEFGHIJKLMNOPQRSTUVWXYZ0123456789-".

(** The characters of a name once its hyphens are underscores. *)
Definition allowedInVariable : list ascii :=
  String.list_ascii_of_string
    "abcdefghijklmnopqrstuvwxyzABCDEFGHIJKLMNOPQRSTUVWXYZ0123456789_".

Definition acceptedName (name : string) : Prop :=
  name ≠ "" ∧ Forall (λ c, c ∈ allowedInName) (String.list_ascii_of_string name).

Lemma inClass_allowed c :
  regexp.inClass c = bool_decide (c ∈ allowedInName).
Proof.
  destruct c as [[] [] [] [] [] [] [] []]; vm_compute; reflexivity.
Qed.

Lemma matchRest_allowed s :
  regexp.matchRest s = true
  ↔ Forall (λ c, c ∈ allowedInName) (String.list_ascii_of_string s).
Proof.
  induction s as [|c s IH]; simpl.
  - split; [constructor|done].
  - rewrite andb_true_iff, IH, inClass_allowed, bool_decide_eq_true.
    split.
    + intros [? ?]. by constructor.
    + intros Hall. by inversion Hall.
Qed.

Lemma MatchString_accepted name :
  regexp.MatchString name = true ↔ acceptedName name.
Proof.
  unfold acceptedName. destruct name as [|c s].
  - simpl. split; [done|]. by intros [? _].
  - change (regexp.MatchString (String c s))
      with (regexp.matchRest (String c s)).
    rewrite matchRest_allowed. split; [by intros ?|by intros [_ ?]].
Qed.

Section EnvVarName.

Context `{tf6server.Externals}.

(** [WithLogEnvVarName] accepts exactly the non-empty names made of
    letters, digits and hyphens.  An accepted name becomes the
    configuration's [envVar] and nothing else changes; any other name
    leaves the configuration as it was and returns the error about
    environment variable names. *)
Theorem env_var_name_option (name : string) (conf : tf6server.ServeConfig) :
  (acceptedName name →
   ∃ conf',
     tf6server.ApplyServeOpt (tf6server.WithLogEnvVarName name) conf
     = (conf', None)
     ∧ tf6server.envVar conf' = name
     ∧ tf6server.logger conf' = tf6server.logger conf
     ∧ tf6server.debugCtx conf' = tf6server.debugCtx conf
     ∧ tf6server.debugCh conf' = tf6server.debugCh conf
     ∧ tf6server.debugCloseCh conf' = tf6server.debugCloseCh conf
     ∧ tf6server.disableLogInitStderr conf'
       = tf6server.disableLogInitStderr conf
     ∧ tf6server.disableLogLocation conf' = tf6server.disableLogLocation conf
     ∧ tf6server.useLoggingSink conf' = tf6server.useLoggingSink conf)
  ∧ (¬ acceptedName name →
     tf6server.ApplyServeOpt (tf6server.WithLogEnvVarName name) conf
     = (conf,
        Some (Go.errorString
          "environment variable names can only contain a-z, A-Z, 0-9, and -"))).
Proof.
  unfold tf6server.ApplyServeOpt, tf6server.WithLogEnvVarName.
  rewrite <- MatchString_accepted. split.
  - intros ->. simpl. eexists. by repeat split.
  - intros Hno. by destruct (regexp.MatchString name).
Qed.

End EnvVarName.

(** Stand-ins for the types of other packages, to run the server on
    concrete values. *)
Definition handles : tf6server.Externals :=
  {| tf6server.Logger := nat; tf6server.DebugContext := nat;
     tf6server.ReattachCh := nat; tf6server.CloseCh := nat;
     tf6server.TestingT := nat; tf6server.ProviderServer := nat;
     tf6server.ServerFactory := nat |}.

Lemma env_var_name_option_witness :
  (∃ conf',
     tf6server.ApplyServeOpt (H := handles)
       (tf6server.WithLogEnvVarName "google-beta") tf6server.zeroServeConfig
     = (conf', None)
     ∧ tf6server.envVar conf' = "google-beta")
  ∧ tf6server.ApplyServeOpt (H := handles)
      (tf6server.WithLogEnvVarName "my_provider") tf6server.zeroServeConfig
    = (tf6server.zeroServeConfig,
       Some (Go.errorString
         "environment variable names can only contain a-z, A-Z, 0-9, and -")).
Proof.
  split.
  - destruct (env_var_name_option (H := handles) "google-beta"
                tf6server.zeroServeConfig) as [Hyes _].
    destruct Hyes as (conf' & Hrun & Hname & _).
    + apply MatchString_accepted. reflexivity.
    + exists conf'. split; [exact Hrun | exact Hname].
  - destruct (env_var_name_option (H := handles) "my_provider"
                tf6server.zeroServeConfig) as [_ Hno].
    apply Hno. intros Hacc. apply MatchString_accepted in Hacc.
    discriminate Hacc.
Defined.

(** ** The options of [Serve] and [New] *)

Section Options.

Context `{tf6server.Externals}.

(** The options that the constructors of the package build. *)
Inductive Builtin : Type :=
| BDebug (ctx : option tf6server.DebugContext)
    (config : option tf6server.ReattachCh)
    (closeCh : option tf6server.CloseCh)
| BLogger (l : option tf6server.Logger)
| BSink (t : option tf6server.TestingT)
| BNoStderr
| BNoLocation
| BEnvVar (name : string).

Definition build (b : Builtin) : tf6server.ServeOpt :=
  match b with
  | BDebug ctx config closeCh => tf6server.WithDebug ctx config closeCh
  | BLogger l => tf6server.WithGoPluginLogger l
  | BSink t => tf6server.WithLoggingSink t
  | BNoStderr => tf6server.WithoutLogStderrOverride
  | BNoLocation => tf6server.WithoutLogLocation
  | BEnvVar name => tf6server.WithLogEnvVarName name
  end.

(** An option is well formed unless it names an environment variable
    with a name that is not accepted. *)
Definition wellFormed (b : Builtin) : Prop :=
  ∀ name, b = BEnvVar name → acceptedName name.

Definition envVarNames (bs : list Builtin) : list string :=
  omap (λ b, match b with BEnvVar name => Some name | _ => None end) bs.

Definition debugModes (bs : list Builtin)
  : list (option tf6server.DebugContext * option tf6server.ReattachCh
          * option tf6server.CloseCh) :=
  omap (λ b, match b with
             | BDebug ctx config closeCh => Some (ctx, config, closeCh)
             | _ => None
             end) bs.

Definition loggers (bs : list Builtin) : list (option tf6server.Logger) :=
  omap (λ b, match b with BLogger l => Some l | _ => None end) bs.

Definition sinks (bs : list Builtin) : list (option tf6server.TestingT) :=
  omap (λ b, match b with BSink t => Some t | _ => None end) bs.

Definition envVarError : Go.error :=
  Go.errorString
    "environment variable names can only contain a-z, A-Z, 0-9, and -".

Definition validB (b : Builtin) : bool :=
  match b with BEnvVar name => regexp.MatchString name | _ => true end.

Lemma validB_wellFormed b : validB b = true ↔ wellFormed b.
Proof.
  unfold wellFormed. destruct b; simpl; try (split; [intros _ ? [=]|done]).
  rewrite MatchString_accepted. split.
  - by intros Hacc ? [= <-].
  - intros Hall. by apply Hall.
Qed.

Lemma forallb_wellFormed bs : forallb validB bs = true ↔ Forall wellFormed bs.
Proof.
  rewrite forallb_forall, Forall_forall. setoid_rewrite <- list_elem_of_In.
  by setoid_rewrite validB_wellFormed.
Qed.

Lemma build_valid b conf :
  validB b = true → (build b conf).2 = None.
Proof.
  destruct b; simpl; try done.
  unfold tf6server.WithLogEnvVarName. by intros ->.
Qed.

Lemma build_invalid b conf :
  validB b = false → build b conf = (conf, Some envVarError).
Proof.
  destruct b; simpl; try done.
  unfold tf6server.WithLogEnvVarName. by intros ->.
Qed.

(** The configuration that a list of well-formed options leaves. *)
Definition configured (bs : list Builtin) (conf : tf6server.ServeConfig)
  : tf6server.ServeConfig :=
  foldl (λ conf b, (build b conf).1) conf bs.

Lemma applyOpts_valid bs conf :
  forallb validB bs = true →
  tf6server.applyOpts (build <$> bs) conf = (configured bs conf, None).
Proof.
  revert conf. induction bs as [|b bs IH]; intros conf Hall; [done|].
  simpl in Hall. apply andb_true_iff in Hall as [Hb Hbs].
  cbn [fmap list_fmap tf6server.applyOpts]. unfold tf6server.ApplyServeOpt.
  pose proof (build_valid b conf Hb) as Hnone.
  destruct (build b conf) as [conf' res] eqn:Hbuild. simpl in Hnone.
  subst res. rewrite (IH conf' Hbs). unfold configured. simpl.
  by rewrite Hbuild.
Qed.

Lemma applyOpts_invalid bs conf :
  forallb validB bs = false →
  ∃ conf', tf6server.applyOpts (build <$> bs) conf = (conf', Some envVarError).
Proof.
  revert conf. induction bs as [|b bs IH]; intros conf Hall; [done|].
  simpl in Hall. cbn [fmap list_fmap tf6server.applyOpts].
  unfold tf6server.ApplyServeOpt.
  destruct (validB b) eqn:Hb.
  - pose proof (build_valid b conf Hb) as Hnone.
    destruct (build b conf) as [conf' res]. simpl in Hnone. subst res.
    by apply IH.
  - rewrite (build_invalid b conf Hb). by eexists.
Qed.

Lemma configured_app bs b conf :
  configured (bs ++ [b])%list conf = (build b (configured bs conf)).1.
Proof. unfold configured. by rewrite foldl_app. Qed.

Lemma omap_snoc {A B} (f : A → option B) (l : list A) (x : A) :
  omap f (l ++ [x])%list
  = (omap f l ++ match f x with Some y => [y] | None => [] end)%list.
Proof.
  rewrite omap_app. simpl. by destruct (f x).
Qed.

Lemma configured_envVar bs conf :
  forallb validB bs = true →
  tf6server.envVar (configured bs conf)
  = default (tf6server.envVar conf) (last (envVarNames bs)).
Proof.
  induction bs as [|b bs IH] using rev_ind; intros Hall; [done|].
  rewrite forallb_app in Hall. apply andb_true_iff in Hall as [Hbs Hb].
  simpl in Hb. rewrite andb_true_r in Hb.
  rewrite configured_app. unfold envVarNames. rewrite omap_snoc.
  fold (envVarNames bs).
  destruct b; simpl; rewrite ?app_nil_r; try by apply IH.
  unfold tf6server.WithLogEnvVarName. simpl in Hb. rewrite Hb. simpl.
  by rewrite last_snoc.
Qed.

Lemma configured_debug bs conf :
  (tf6server.debugCtx (configured bs conf),
   tf6server.debugCh (configured bs conf),
   tf6server.debugCloseCh (configured bs conf))
  = default (tf6server.debugCtx conf, tf6server.debugCh conf,
             tf6server.debugCloseCh conf) (last (debugModes bs)).
Proof.
  induction bs as [|b bs IH] using rev_ind; [done|].
  rewrite configured_app. unfold debugModes. rewrite omap_snoc.
  fold (debugModes bs).
  destruct b; simpl; rewrite ?app_nil_r; try by apply IH.
  - by rewrite last_snoc.
  - unfold tf6server.WithLogEnvVarName.
    by destruct (negb (regexp.MatchString name)).
Qed.

Lemma configured_logger bs conf :
  tf6server.logger (configured bs conf)
  = default (tf6server.logger conf) (last (loggers bs)).
Proof.
  induction bs as [|b bs IH] using rev_ind; [done|].
  rewrite configured_app. unfold loggers. rewrite omap_snoc.
  fold (loggers bs).
  destruct b; simpl; rewrite ?app_nil_r; try by apply IH.
  - by rewrite last_snoc.
  - unfold tf6server.WithLogEnvVarName.
    by destruct (negb (regexp.MatchString name)).
Qed.

Lemma configured_sink bs conf :
  tf6server.useLoggingSink (configured bs conf)
  = default (tf6server.useLoggingSink conf) (last (sinks bs)).
Proof.
  induction bs as [|b bs IH] using rev_ind; [done|].
  rewrite configured_app. unfold sinks. rewrite omap_snoc.
  fold (sinks bs).
  destruct b; simpl; rewrite ?app_nil_r; try by apply IH.
  - by rewrite last_snoc.
  - unfold tf6server.WithLogEnvVarName.
    by destruct (negb (regexp.MatchString name)).
Qed.

Lemma configured_stderr bs conf :
  tf6server.disableLogInitStderr (configured bs conf) = true
  ↔ tf6server.disableLogInitStderr conf = true ∨ BNoStderr ∈ bs.
Proof.
  induction bs as [|b bs IH] using rev_ind.
  - simpl. split; [by left|]. intros [?|Hin]; [done|].
    by apply elem_of_nil in Hin.
  - rewrite configured_app, elem_of_app, list_elem_of_singleton.
    destruct b; simpl; try (rewrite IH; clear; split;
      [intros [?|?]; auto | intros [?|[?|[=]]]; auto]).
    + split; [auto|done].
    + unfold tf6server.WithLogEnvVarName.
      destruct (negb (regexp.MatchString name)); simpl; rewrite IH; clear;
        (split; [intros [?|?]; auto | intros [?|[?|[=]]]; auto]).
Qed.

Lemma configured_location bs conf :
  tf6server.disableLogLocation (configured bs conf) = true
  ↔ tf6server.disableLogLocation conf = true ∨ BNoLocation ∈ bs.
Proof.
  induction bs as [|b bs IH] using rev_ind.
  - simpl. split; [by left|]. intros [?|Hin]; [done|].
    by apply elem_of_nil in Hin.
  - rewrite configured_app, elem_of_app, list_elem_of_singleton.
    destruct b; simpl; try (rewrite IH; clear; split;
      [intros [?|?]; auto | intros [?|[?|[=]]]; auto]).
    + split; [auto|done].
    + unfold tf6server.WithLogEnvVarName.
      destruct (negb (regexp.MatchString name)); simpl; rewrite IH; clear;
        (split; [intros [?|?]; auto | intros [?|[?|[=]]]; auto]).
Qed.

End Options.

Section ServeAndNew.

Context `{tf6server.Externals}.

Variable parse : string → string + Go.error.

Lemma applyOpts_builtin_inv bs conf0 conf :
  tf6server.applyOpts (build <$> bs) conf0 = (conf, None) →
  forallb validB bs = true ∧ conf = configured bs conf0.
Proof.
  intros Hrun. destruct (forallb validB bs) eqn:Hall.
  - rewrite applyOpts_valid in Hrun by done. by simplify_eq.
  - destruct (applyOpts_invalid bs conf0 Hall) as [conf' Hbad].
    rewrite Hrun in Hbad. by simplify_eq.
Qed.

(** The pieces from which [New] puts the logging options together. *)
Definition sdkOptionsOf (conf : tf6server.ServeConfig)
  : list tf6server.LogOption :=
  ((if tf6server.disableLogInitStderr conf then []
    else [tf6server.WithStderrFromInit])
   ++ (if tf6server.disableLogLocation conf then [tf6server.WithoutLocation]
       else []))%list.

Definition logNameOf (conf : tf6server.ServeConfig) (name : string) : string :=
  gostrings.ReplaceAll
    (if String.eqb (tf6server.envVar conf) ""
     then match parse name with
          | inl addrType => addrType
          | inr _ => ""
          end
     else tf6server.envVar conf)
    "-"%char "_"%char.

Definition nameOptionsOf (r : string) : list tf6server.LogOption :=
  if String.eqb r "" then []
  else [tf6server.WithLogName r;
        tf6server.WithLevelFromEnv "TF_LOG_PROVIDER" [r]].

Lemma New_configured name srv bs :
  forallb validB bs = true →
  tf6server.New parse name srv (build <$> bs)
  = let conf := configured bs tf6server.zeroServeConfig in
    Some {| tf6server.downstream := srv;
            tf6server.stopCh := 0;
            tf6server.closed := ∅;
            tf6server.tflogSDKOpts := sdkOptionsOf conf;
            tf6server.tflogOpts :=
              (sdkOptionsOf conf ++ nameOptionsOf (logNameOf conf name))%list;
            tf6server.useTFLogSink :=
              bool_decide (is_Some (tf6server.useLoggingSink conf));
            tf6server.testHandle := tf6server.useLoggingSink conf;
            tf6server.name := name |}.
Proof.
  intros Hall. unfold tf6server.New. rewrite applyOpts_valid by done.
  cbv zeta. unfold sdkOptionsOf, nameOptionsOf, logNameOf.
  destruct (tf6server.disableLogInitStderr _),
    (tf6server.disableLogLocation _); cbn [negb app];
    destruct (String.eqb (tf6server.envVar _) "") eqn:Hempty;
    try (apply String.eqb_eq in Hempty; rewrite Hempty);
    destruct (parse name); cbn [negb];
    by destruct (String.eqb (gostrings.ReplaceAll _ _ _) "").
Qed.

(** [Serve] returns an error exactly when [New] panics: when one of the
    options names an environment variable with a name that is not
    accepted.  The error is then the one about environment variable
    names, and nothing is served. *)
Theorem serve_and_new_agree_on_options (name : string)
    (factory : tf6server.ServerFactory) (srv : tf6server.ProviderServer)
    (bs : list Builtin) :
  (Forall wellFormed bs →
   (∃ c, tf6server.Serve name factory (build <$> bs) = inr c)
   ∧ (∃ s, tf6server.New parse name srv (build <$> bs) = Some s))
  ∧ (¬ Forall wellFormed bs →
     tf6server.Serve name factory (build <$> bs) = inl envVarError
     ∧ tf6server.New parse name srv (build <$> bs) = None).
Proof.
  rewrite <- forallb_wellFormed. split.
  - intros Hall. split.
    + unfold tf6server.Serve. rewrite applyOpts_valid by done. by eexists.
    + rewrite New_configured by done. by eexists.
  - unfold tf6server.Serve, tf6server.New.
    intros Hbad. apply not_true_is_false in Hbad.
    destruct (applyOpts_invalid bs tf6server.zeroServeConfig Hbad)
      as [conf' ->].
    done.
Qed.

(** The configuration that a list of options builds depends only on
    which switches occur in it and on the last option of each other kind:
    a switch that was set stays set, and a later logger, sink, debug mode
    or variable name replaces an earlier one. *)
Theorem options_last_one_wins (bs : list Builtin)
    (conf : tf6server.ServeConfig) :
  tf6server.applyOpts (build <$> bs) tf6server.zeroServeConfig
  = (conf, None) →
  (tf6server.disableLogInitStderr conf = true ↔ BNoStderr ∈ bs)
  ∧ (tf6server.disableLogLocation conf = true ↔ BNoLocation ∈ bs)
  ∧ tf6server.envVar conf = default "" (last (envVarNames bs))
  ∧ tf6server.logger conf = default None (last (loggers bs))
  ∧ tf6server.useLoggingSink conf = default None (last (sinks bs))
  ∧ (tf6server.debugCtx conf, tf6server.debugCh conf,
     tf6server.debugCloseCh conf)
    = default (None, None, None) (last (debugModes bs)).
Proof.
  intros Hrun. apply applyOpts_builtin_inv in Hrun as [Hall ->].
  split; [|split; [|split; [|split; [|split]]]].
  - rewrite configured_stderr. simpl. split; [by intros [?|?]|by right].
  - rewrite configured_location. simpl. split; [by intros [?|?]|by right].
  - by rewrite configured_envVar.
  - by rewrite configured_logger.
  - by rewrite configured_sink.
  - exact (configured_debug bs tf6server.zeroServeConfig).
Qed.

(** [Serve] runs in debug mode exactly when the last [WithDebug] option
    passed a channel, and the context, the channel and the close channel
    that go-plugin receives all come from that one option.  The plugin
    set has the one entry "provider", which carries the name and the
    options as they were given. *)
Theorem serve_debug_mode (name : string) (factory : tf6server.ServerFactory)
    (bs : list Builtin) (c : tf6server.PluginServeConfig) :
  tf6server.Serve name factory (build <$> bs) = inr c →
  tf6server.Test c
  = match last (debugModes bs) with
    | Some (ctx, Some ch, closeCh) =>
      Some {| tf6server.TestContext := ctx;
              tf6server.ReattachConfigCh := Some ch;
              tf6server.TestCloseCh := closeCh |}
    | _ => None
    end
  ∧ tf6server.PluginLogger c = default None (last (loggers bs))
  ∧ tf6server.Plugins c
    = {[ "provider" := {| tf6server.GRPCProvider := factory;
                          tf6server.Opts := build <$> bs;
                          tf6server.Name := name |} ]}.
Proof.
  unfold tf6server.Serve. intros Hrun.
  destruct (tf6server.applyOpts (build <$> bs) tf6server.zeroServeConfig)
    as [conf [err|]] eqn:Hopts; [done|].
  apply applyOpts_builtin_inv in Hopts as [Hall ->].
  injection Hrun as <-. cbn [tf6server.Test tf6server.PluginLogger
    tf6server.Plugins].
  split; [|split; [by rewrite configured_logger|done]].
  pose proof (configured_debug bs tf6server.zeroServeConfig) as Hdebug.
  simpl in Hdebug.
  destruct (last (debugModes bs)) as [[[ctx ch] closeCh]|];
    simpl in Hdebug; injection Hdebug as Hctx Hch Hclose; rewrite Hch;
    [destruct ch|]; by rewrite ?Hctx, ?Hclose.
Qed.

End ServeAndNew.

Lemma serve_and_new_agree_on_options_witness :
  ((∃ c, tf6server.Serve (H := handles) "registry.terraform.io/passbase/etcd" 0
           (build <$> [BNoLocation; BEnvVar "etcd"]) = inr c)
   ∧ (∃ s, tf6server.New (H := handles) (λ _, inl "etcd")
             "registry.terraform.io/passbase/etcd" 0
             (build <$> [BNoLocation; BEnvVar "etcd"]) = Some s))
  ∧ tf6server.Serve (H := handles) "registry.terraform.io/passbase/etcd" 0
      (build <$> [BNoLocation; BEnvVar "et cd"]) = inl envVarError
  ∧ tf6server.New (H := handles) (λ _, inl "etcd")
      "registry.terraform.io/passbase/etcd" 0
      (build <$> [BNoLocation; BEnvVar "et cd"]) = None.
Proof.
  split.
  - destruct (serve_and_new_agree_on_options (H := handles) (λ _, inl "etcd")
                "registry.terraform.io/passbase/etcd" 0 0
                [BNoLocation; BEnvVar "etcd"]) as [Hgood _].
    apply Hgood. apply forallb_wellFormed. reflexivity.
  - destruct (serve_and_new_agree_on_options (H := handles) (λ _, inl "etcd")
                "registry.terraform.io/passbase/etcd" 0 0
                [BNoLocation; BEnvVar "et cd"]) as [_ Hbad].
    apply Hbad. intros Hall. apply forallb_wellFormed in Hall.
    discriminate Hall.
Defined.

Lemma options_last_one_wins_witness :
  (true = true ↔ BNoStderr (H := handles) ∈ [BEnvVar "a"; BNoStderr; BEnvVar "b"])
  ∧ (false = true ↔ BNoLocation (H := handles) ∈ [BEnvVar "a"; BNoStderr; BEnvVar "b"])
  ∧ "b" = default "" (last (envVarNames (H := handles)
                             [BEnvVar "a"; BNoStderr; BEnvVar "b"])).
Proof.
  destruct (options_last_one_wins (H := handles)
              [BEnvVar "a"; BNoStderr; BEnvVar "b"]
              {| tf6server.logger := None; tf6server.debugCtx := None;
                 tf6server.debugCh := None; tf6server.debugCloseCh := None;
                 tf6server.disableLogInitStderr := true;
                 tf6server.disableLogLocation := false;
                 tf6server.useLoggingSink := None;
                 tf6server.envVar := "b" |})
    as (Hstderr & Hlocation & Hname & _).
  - reflexivity.
  - split; [exact Hstderr|]. split; [exact Hlocation | exact Hname].
Defined.

Lemma serve_debug_mode_witness :
  ∃ c, tf6server.Serve (H := handles) "etcd" 0
         (build <$> [BDebug (H := handles) (Some 1) None (Some 2);
                     BDebug (H := handles) (Some 3) (Some 4) (Some 5)])
       = inr c
       ∧ tf6server.Test c
         = Some (@tf6server.Build_ServeTestConfig handles
                   (Some 3) (Some 4) (Some 5)).
Proof.
  eexists. split; [reflexivity|].
  apply (serve_debug_mode (H := handles) "etcd" 0
           [BDebug (H := handles) (Some 1) None (Some 2);
            BDebug (H := handles) (Some 3) (Some 4) (Some 5)]).
  reflexivity.
Defined.

(** ** The logging name that [New] derives *)

Lemma ReplaceAll_length s old new :
  String.length (gostrings.ReplaceAll s old new) = String.length s.
Proof. induction s as [|c s IH]; simpl; congruence. Qed.

Lemma ReplaceAll_empty s old new :
  String.eqb (gostrings.ReplaceAll s old new) "" = String.eqb s "".
Proof. by destruct s. Qed.

Lemma underscore_for_hyphen c :
  bool_decide (c ∈ allowedInName) = true →
  bool_decide ((if Ascii.eqb c "-" then "_" else c)%char ∈ allowedInVariable)
  = true.
Proof.
  destruct c as [[] [] [] [] [] [] [] []]; vm_compute; congruence.
Qed.

Lemma ReplaceAll_characters s :
  Forall (λ c, c ∈ allowedInName) (String.list_ascii_of_string s) →
  Forall (λ c, c ∈ allowedInVariable)
    (String.list_ascii_of_string (gostrings.ReplaceAll s "-" "_")).
Proof.
  induction s as [|c s IH]; simpl; intros Hall; [constructor|].
  inversion Hall as [|? ? Hc Hs]; subst. constructor; [|by apply IH].
  eapply bool_decide_eq_true_1. apply underscore_for_hyphen.
  by apply bool_decide_eq_true_2.
Qed.

Section LogName.

Context `{tf6server.Externals}.

Lemma sdkOptions_stderr conf :
  tf6server.WithStderrFromInit ∈ sdkOptionsOf conf
  ↔ tf6server.disableLogInitStderr conf = false.
Proof.
  unfold sdkOptionsOf.
  destruct (tf6server.disableLogInitStderr conf),
    (tf6server.disableLogLocation conf); cbn [app];
    rewrite ?elem_of_cons, ?elem_of_nil; split; try done.
  - by intros [?|?].
  - intros _. by left.
  - intros _. by left.
Qed.

Lemma sdkOptions_location conf :
  tf6server.WithoutLocation ∈ sdkOptionsOf conf
  ↔ tf6server.disableLogLocation conf = true.
Proof.
  unfold sdkOptionsOf.
  destruct (tf6server.disableLogInitStderr conf),
    (tf6server.disableLogLocation conf); cbn [app];
    rewrite ?elem_of_cons, ?elem_of_nil; split; try done.
  - intros _. by left.
  - intros _. right. by left.
  - by intros [?|?].
Qed.

Lemma New_builtin_inv parse name srv bs s :
  tf6server.New parse name srv (build <$> bs) = Some s →
  forallb validB bs = true.
Proof.
  intros Hrun. destruct (forallb validB bs) eqn:Hall; [done|].
  unfold tf6server.New in Hrun.
  by destruct (applyOpts_invalid bs tf6server.zeroServeConfig Hall)
    as [conf' Hbad]; rewrite Hbad in Hrun.
Qed.

Lemma last_name_accepted bs n :
  forallb validB bs = true → last (envVarNames bs) = Some n → acceptedName n.
Proof.
  intros Hall Hlast. apply last_Some_elem_of in Hlast.
  apply list_elem_of_omap in Hlast as (b & Hin & Hb).
  destruct b; try done. injection Hb as ->.
  apply forallb_wellFormed in Hall.
  rewrite Forall_forall in Hall. by apply (Hall _ Hin).
Qed.

(** When an environment variable name is configured, [New] names the
    provider's logger after the last such name with every hyphen turned
    into an underscore: the logging name has the length of the configured
    name, is not empty and consists of letters, digits and underscores
    only.  The provider's address is not consulted. *)
Theorem new_log_name_is_well_formed (parse : string → string + Go.error)
    (name : string) (srv : tf6server.ProviderServer) (bs : list Builtin)
    (s : tf6server.server) (n : string) :
  tf6server.New parse name srv (build <$> bs) = Some s →
  last (envVarNames bs) = Some n →
  ∃ r,
    r = gostrings.ReplaceAll n "-" "_"
    ∧ tf6server.tflogOpts s
      = (tf6server.tflogSDKOpts s
         ++ [tf6server.WithLogName r;
             tf6server.WithLevelFromEnv "TF_LOG_PROVIDER" [r]])%list
    ∧ String.length r = String.length n
    ∧ r ≠ ""
    ∧ Forall (λ c, c ∈ allowedInVariable) (String.list_ascii_of_string r)
    ∧ ∀ parse', tf6server.New parse' name srv (build <$> bs) = Some s.
Proof.
  intros Hrun Hlast.
  pose proof (New_builtin_inv _ _ _ _ _ Hrun) as Hall.
  destruct (last_name_accepted bs n Hall Hlast) as [Hne Hchars].
  assert (tf6server.envVar (configured bs tf6server.zeroServeConfig) = n)
    as Henv by (by rewrite configured_envVar, Hlast).
  assert (String.eqb n "" = false) as Hneb by (by apply String.eqb_neq).
  assert (∀ p, logNameOf p (configured bs tf6server.zeroServeConfig) name
               = gostrings.ReplaceAll n "-" "_") as Hname.
  { intros p. unfold logNameOf. by rewrite Henv, Hneb. }
  exists (gostrings.ReplaceAll n "-" "_").
  rewrite New_configured in Hrun by done. cbv zeta in Hrun.
  injection Hrun as <-. cbn [tf6server.tflogOpts tf6server.tflogSDKOpts].
  split; [done|]. split.
  { rewrite Hname. unfold nameOptionsOf. by rewrite ReplaceAll_empty, Hneb. }
  split; [apply ReplaceAll_length|]. split.
  { intros Hr. by destruct n. }
  split; [by apply ReplaceAll_characters|].
  intros parse'. rewrite New_configured by done. cbv zeta.
  by rewrite !Hname.
Qed.

(** The logging options of every server that [New] returns.  The options
    of the SDK's logger are [WithStderrFromInit], unless
    [WithoutLogStderrOverride] was given, and [WithoutLocation], exactly
    when [WithoutLogLocation] was given, and nothing else.  The options
    of the provider's logger are those of the SDK's logger followed by
    the name options: the logging name is the last configured name or,
    when none is configured, the type of the provider's address, with
    underscores for hyphens; when that is empty (no name configured and
    an address that does not parse or has no type) there are no name
    options. *)
Theorem new_falls_back_to_provider_address
    (parse : string → string + Go.error) (name : string)
    (srv : tf6server.ProviderServer) (bs : list Builtin)
    (s : tf6server.server) :
  tf6server.New parse name srv (build <$> bs) = Some s →
  tf6server.tflogOpts s
  = (tf6server.tflogSDKOpts s
     ++ let resolved :=
          match last (envVarNames bs) with
          | Some configured => configured
          | None =>
            match parse name with
            | inl addrType => addrType
            | inr _ => ""
            end
          end in
        if String.eqb resolved "" then []
        else [tf6server.WithLogName (gostrings.ReplaceAll resolved "-" "_");
              tf6server.WithLevelFromEnv "TF_LOG_PROVIDER"
                [gostrings.ReplaceAll resolved "-" "_"]])%list
  ∧ (tf6server.WithStderrFromInit ∈ tf6server.tflogSDKOpts s
     ↔ BNoStderr ∉ bs)
  ∧ (tf6server.WithoutLocation ∈ tf6server.tflogSDKOpts s
     ↔ BNoLocation ∈ bs)
  ∧ (∀ o, o ∈ tf6server.tflogSDKOpts s →
          o = tf6server.WithStderrFromInit ∨ o = tf6server.WithoutLocation)
  ∧ tf6server.name s = name
  ∧ tf6server.downstream s = srv.
Proof.
  intros Hrun.
  pose proof (New_builtin_inv _ _ _ _ _ Hrun) as Hall.
  pose proof (configured_envVar bs tf6server.zeroServeConfig Hall) as Henv.
  simpl in Henv.
  rewrite New_configured in Hrun by done. cbv zeta in Hrun.
  injection Hrun as <-.
  cbn [tf6server.tflogOpts tf6server.tflogSDKOpts tf6server.name
       tf6server.downstream].
  split.
  { f_equal. unfold logNameOf, nameOptionsOf. rewrite Henv.
    rewrite ReplaceAll_empty.
    destruct (last (envVarNames bs)) as [n|] eqn:Hlast; simpl.
    - destruct (last_name_accepted bs n Hall Hlast) as [Hne _].
      by destruct n.
    - by destruct (parse name). }
  rewrite sdkOptions_stderr, sdkOptions_location.
  rewrite <- not_true_iff_false.
  rewrite configured_stderr, configured_location. simpl.
  split; [|split; [|split; [|done]]].
  - split; [intros Hno Hin; apply Hno; by right|].
    intros Hno [?|?]; [done|by apply Hno].
  - split; [by intros [?|?]|by right].
  - intros o. unfold sdkOptionsOf.
    destruct (tf6server.disableLogInitStderr _),
      (tf6server.disableLogLocation _); cbn [app];
      rewrite ?elem_of_cons, ?elem_of_nil; intros Hin;
      repeat (destruct Hin as [Hin|Hin]; auto); done.
Qed.

End LogName.

Lemma new_log_name_is_well_formed_witness :
  ∃ s r,
    tf6server.New (H := handles) (λ _, inr Go.Canceled) "etcd" 0
      (build <$> [BEnvVar "etcd"; BNoLocation; BEnvVar "google-beta"])
    = Some s
    ∧ r = "google_beta"
    ∧ tf6server.tflogOpts s
      = (tf6server.tflogSDKOpts s
         ++ [tf6server.WithLogName r;
             tf6server.WithLevelFromEnv "TF_LOG_PROVIDER" [r]])%list
    ∧ String.length r = 11.
Proof.
  destruct (tf6server.New (H := handles) (λ _, inr Go.Canceled) "etcd" 0
              (build <$> [BEnvVar "etcd"; BNoLocation; BEnvVar "google-beta"]))
    as [s|] eqn:Hrun; [|discriminate Hrun].
  destruct (new_log_name_is_well_formed (H := handles) _ _ _ _ s "google-beta"
              Hrun eq_refl) as (r & Hr & Hopts & Hlen & _).
  exists s, r. split; [reflexivity|].
  split; [exact Hr|]. split; [exact Hopts | exact Hlen].
Defined.

Lemma new_falls_back_to_provider_address_witness :
  ∃ s,
    tf6server.New (H := handles) (λ _, inl "google-beta")
      "registry.terraform.io/hashicorp/google-beta" 0
      (build <$> [BNoStderr; BEnvVar "etcd"]) = Some s
    ∧ tf6server.tflogOpts s
      = (tf6server.tflogSDKOpts s
         ++ [tf6server.WithLogName "etcd";
             tf6server.WithLevelFromEnv "TF_LOG_PROVIDER" ["etcd"]])%list
    ∧ (tf6server.WithStderrFromInit ∈ tf6server.tflogSDKOpts s
       ↔ BNoStderr (H := handles) ∉ [BNoStderr; BEnvVar "etcd"]).
Proof.
  destruct (tf6server.New (H := handles) (λ _, inl "google-beta")
              "registry.terraform.io/hashicorp/google-beta" 0
              (build <$> [BNoStderr; BEnvVar "etcd"]))
    as [s|] eqn:Hrun; [|discriminate Hrun].
  destruct (new_falls_back_to_provider_address (H := handles) _ _ _ _ s Hrun)
    as (Hopts & Hstderr & _).
  exists s. split; [reflexivity|]. split; [exact Hopts | exact Hstderr].
Defined.

(** ** Stopping the server *)

Section Stopping.

Context `{tf6server.Externals}.

(** The stop channel in use is newer than every channel that was
    closed. *)
Definition stopInvariant (s : tf6server.server) : Prop :=
  ∀ ch, ch ∈ tf6server.closed s → ch < tf6server.stopCh s.

(** A context is cancelled by a stop of the server when one of the stop
    channels it watches has been closed. *)
Definition cancelledByStop (s : tf6server.server) (ctx : logging.Context)
  : Prop :=
  ∃ ch, ch ∈ logging.stopChs ctx ∧ ch ∈ tf6server.closed s.

(** [stop] cancels every context that was made stoppable before it, keeps
    cancelled what was cancelled, and leaves the server with a stop channel
    that is not closed: a context made stoppable afterwards, from a parent
    that watches no channel, is not cancelled. *)
Theorem stop_cancels_contexts_in_flight (s : tf6server.server)
    (ctx ctx' parent : logging.Context) :
  stopInvariant s →
  logging.stopChs parent = [] →
  stopInvariant (tf6server.stop s)
  ∧ (tf6server.stopCh (tf6server.stop s)
     ∉ tf6server.closed (tf6server.stop s))
  ∧ cancelledByStop (tf6server.stop s) (tf6server.stoppableContext s ctx)
  ∧ (cancelledByStop s ctx' → cancelledByStop (tf6server.stop s) ctx')
  ∧ ¬ cancelledByStop (tf6server.stop s)
        (tf6server.stoppableContext (tf6server.stop s) parent).
Proof.
  intros Hinv Hparent.
  assert (stopInvariant (tf6server.stop s)) as Hinv'.
  { intros ch. unfold tf6server.stop; simpl.
    rewrite elem_of_union, elem_of_singleton.
    intros [->|Hin]; [lia|]. specialize (Hinv ch Hin). lia. }
  split; [done|]. split.
  { intros Hin. specialize (Hinv' _ Hin). lia. }
  split.
  { exists (tf6server.stopCh s). split; [by left|].
    unfold tf6server.stop; simpl. apply elem_of_union. left.
    by apply elem_of_singleton. }
  split.
  { intros (ch & Hwatch & Hclosed). exists ch. split; [done|].
    unfold tf6server.stop; simpl. apply elem_of_union. by right. }
  intros (ch & Hwatch & Hclosed).
  unfold tf6server.stoppableContext in Hwatch; simpl in Hwatch.
  rewrite Hparent in Hwatch. apply list_elem_of_singleton in Hwatch.
  specialize (Hinv' _ Hclosed). simpl in Hinv'. lia.
Qed.

(** A server that [New] returns satisfies the invariant. *)
Lemma New_stopInvariant parse name srv opts s :
  tf6server.New parse name srv opts = Some s → stopInvariant s.
Proof.
  unfold tf6server.New. intros Hrun ch.
  destruct (tf6server.applyOpts opts tf6server.zeroServeConfig)
    as [conf [err|]]; [done|].
  destruct (negb (tf6server.disableLogInitStderr conf)),
    (tf6server.disableLogLocation conf);
    destruct (negb _) in Hrun; injection Hrun as <-; simpl;
    by rewrite elem_of_empty.
Qed.

End Stopping.

Lemma stop_cancels_contexts_in_flight_witness :
  ∃ s inflight,
    tf6server.New (H := handles) (λ _, inl "etcd") "etcd" 0 [] = Some s
    ∧ inflight
      = tf6server.stoppableContext s
          {| logging.sdkFields := ∅; logging.subsystemFields := ∅;
             logging.providerFields := ∅; logging.stopChs := [] |}
    ∧ cancelledByStop (tf6server.stop s) inflight
    ∧ ¬ cancelledByStop (tf6server.stop s)
          (tf6server.stoppableContext (tf6server.stop s)
             {| logging.sdkFields := ∅; logging.subsystemFields := ∅;
                logging.providerFields := ∅; logging.stopChs := [] |}).
Proof.
  destruct (tf6server.New (H := handles) (λ _, inl "etcd") "etcd" 0 [])
    as [s|] eqn:Hrun; [|discriminate Hrun].
  exists s. eexists. split; [reflexivity|]. split; [reflexivity|].
  destruct (stop_cancels_contexts_in_flight (H := handles) s
              {| logging.sdkFields := ∅; logging.subsystemFields := ∅;
                 logging.providerFields := ∅; logging.stopChs := [] |}
              {| logging.sdkFields := ∅; logging.subsystemFields := ∅;
                 logging.providerFields := ∅; logging.stopChs := [] |}
              {| logging.sdkFields := ∅; logging.subsystemFields := ∅;
                 logging.providerFields := ∅; logging.stopChs := [] |})
    as (_ & _ & Hcancel & _ & Hfresh).
  - exact (New_stopInvariant _ _ _ _ _ Hrun).
  - reflexivity.
  - split; [exact Hcancel | exact Hfresh].
Defined.

(** ** The logging contexts *)

Lemma proto_fields_after ctx key value :
  default ∅
    (logging.subsystemFields
       (tfsdklog.SubsystemWith ctx tf6server.tflogSubsystemName key value)
     !! tf6server.tflogSubsystemName)
  = <[key := value]>
      (default ∅
         (logging.subsystemFields ctx !! tf6server.tflogSubsystemName)).
Proof. unfold tfsdklog.SubsystemWith; simpl. by rewrite lookup_insert_eq. Qed.

(** The RPC name and the resource type can be attached in either order:
    the resulting context is the same, all three loggers carry both
    fields, every other field of every logger is as before, and the stop
    channels that the context watches are untouched. *)
Theorem logging_contexts_compose (ctx : logging.Context)
    (rpc resource : string) :
  let ctx' :=
    tf6server.resourceLoggingContext (tf6server.rpcLoggingContext ctx rpc)
      resource in
  ctx'
  = tf6server.rpcLoggingContext
      (tf6server.resourceLoggingContext ctx resource) rpc
  ∧ Forall (λ fields : gmap string string,
              fields !! "tf_rpc" = Some rpc
              ∧ fields !! "tf_resource_type" = Some resource)
      [logging.sdkFields ctx';
       default ∅ (logging.subsystemFields ctx' !! "proto");
       logging.providerFields ctx']
  ∧ (∀ key, key ≠ "tf_rpc" → key ≠ "tf_resource_type" →
       logging.sdkFields ctx' !! key = logging.sdkFields ctx !! key
       ∧ logging.providerFields ctx' !! key
         = logging.providerFields ctx !! key
       ∧ default ∅ (logging.subsystemFields ctx' !! "proto") !! key
         = default ∅ (logging.subsystemFields ctx !! "proto") !! key)
  ∧ logging.stopChs ctx' = logging.stopChs ctx.
Proof.
  intros ctx'. subst ctx'.
  unfold tf6server.resourceLoggingContext, tf6server.rpcLoggingContext,
    tfsdklog.With, tflog.With, tfsdklog.SubsystemWith,
    tf6server.logKeyRPC, tf6server.logKeyResourceType,
    tf6server.tflogSubsystemName.
  cbn [logging.sdkFields logging.subsystemFields logging.providerFields
       logging.stopChs].
  rewrite !lookup_insert_eq. cbn [default]. unfold id.
  split; [|split; [|split; [|done]]].
  - f_equal.
    + by apply insert_insert_ne.
    + rewrite !insert_insert_eq. f_equal. by apply insert_insert_ne.
    + by apply insert_insert_ne.
  - repeat (apply Forall_cons; split); try done;
      (split; [by rewrite lookup_insert_ne, lookup_insert_eq
              | apply lookup_insert_eq]).
  - intros key Hrpc Htype. by rewrite !lookup_insert_ne.
Qed.

(** ** The RPC handlers *)

Definition isError (e : logging.Entry) : bool :=
  match logging.level e with
  | logging.Error => true
  | logging.Trace => false
  end.

(** What is logged matches what is returned: the log starts with the
    request being received and ends with it being served, holds no error
    line when a response is returned, and holds exactly one, carrying the
    returned error, otherwise. *)
Definition logMatchesResult {Ret : Type}
    (log : list logging.Entry) (result : Ret + Go.error) : Prop :=
  head (logging.message <$> log) = Some "Received request"
  ∧ last (logging.message <$> log) = Some "Served request"
  ∧ match result with
    | inl _ => List.filter isError log = []
    | inr err =>
      ∃ e, List.filter isError log = [e]
           ∧ logging.args e = [("error", Go.Error err)]
    end.

Section HandlerProperties.

Context `{tf6server.Externals}.
Context {Req R Resp Ret : Type}.

Variable loggingContext : tf6server.server → logging.Context → logging.Context.
Variable TypeName : Req → string.
Variable fromproto : Req → R + Go.error.
Variable call :
  tf6server.ProviderServer → logging.Context → R → Resp + Go.error.
Variable toproto : Resp → Ret + Go.error.

Lemma relay_logMatchesResult s ctx req :
  logMatchesResult (tf6server.relay fromproto call toproto s ctx req).1
    (tf6server.relay fromproto call toproto s ctx req).2.
Proof.
  unfold tf6server.relay, logMatchesResult.
  destruct (fromproto req) as [r|err]; [|simpl; eauto].
  destruct (call _ ctx r) as [resp|err]; [|simpl; eauto].
  destruct (toproto resp) as [ret|err]; simpl; eauto.
Qed.

(** Every handler logs what it returns: for each of the RPCs and for
    [Stop], whatever the conversions and the downstream provider do. *)
Theorem handlers_log_what_they_return (rpc : string) (s : tf6server.server)
    (ctx : logging.Context) (req : Req) :
  let provider :=
    tf6server.providerRPC loggingContext fromproto call toproto rpc s ctx req in
  let validate :=
    tf6server.ValidateProviderConfig loggingContext fromproto call toproto
      s ctx req in
  let dataSource :=
    tf6server.dataSourceRPC loggingContext TypeName fromproto call toproto
      rpc s ctx req in
  let resource :=
    tf6server.resourceRPC loggingContext TypeName fromproto call toproto
      rpc s ctx req in
  let stopped :=
    tf6server.Stop loggingContext fromproto call toproto s ctx req in
  logMatchesResult provider.1 provider.2
  ∧ logMatchesResult validate.1 validate.2
  ∧ logMatchesResult dataSource.1 dataSource.2
  ∧ logMatchesResult resource.1 resource.2
  ∧ logMatchesResult stopped.1.2 stopped.2.
Proof.
  cbv zeta. repeat split; try apply relay_logMatchesResult.
  all: unfold tf6server.Stop.
  all: destruct (fromproto req) as [r|err]; [|simpl; eauto].
  all: destruct (call _ _ r) as [resp|err]; [|simpl; eauto].
  all: destruct (toproto resp) as [ret|err]; simpl; eauto.
Qed.

End HandlerProperties.

Section HandlerTraces.

Context `{tf6server.Externals}.
Context {Req R Resp Ret : Type}.

Variable loggingContext : tf6server.server → logging.Context → logging.Context.
Variable TypeName : Req → string.
Variable fromproto : Req → R + Go.error.
Variable call :
  tf6server.ProviderServer → logging.Context → R → Resp + Go.error.
Variable toproto : Resp → Ret + Go.error.

Lemma relay_entries s ctx req :
  Forall (λ e, logging.subsystem e = "proto"
               ∧ logging.fields e
                 = default ∅ (logging.subsystemFields ctx !! "proto"))
    (tf6server.relay fromproto call toproto s ctx req).1.
Proof.
  unfold tf6server.relay.
  destruct (fromproto req) as [r|err]; [|by repeat constructor].
  destruct (call _ ctx r) as [resp|err]; [|by repeat constructor].
  destruct (toproto resp) as [ret|err]; by repeat constructor.
Qed.

Lemma Stop_entries s ctx req :
  Forall (λ e, logging.subsystem e = "proto"
               ∧ logging.fields e
                 = default ∅
                     (logging.subsystemFields
                        (tf6server.stoppableContext s
                           (tf6server.rpcLoggingContext (loggingContext s ctx)
                              "Stop"))
                      !! "proto"))
    (tf6server.Stop loggingContext fromproto call toproto s ctx req).1.2.
Proof.
  unfold tf6server.Stop.
  destruct (fromproto req) as [r|err]; [|by repeat constructor].
  destruct (call _ _ r) as [resp|err]; [|by repeat constructor].
  destruct (toproto resp) as [ret|err]; by repeat constructor.
Qed.

(** Every line that a handler logs goes to the "proto" subsystem and
    carries the name of the RPC: for the handlers of the RPCs that name
    no resource, for [ValidateProviderConfig] and for [Stop]; the
    handlers of the RPCs on a resource or on a data source add the type
    that the request names. *)
Theorem handlers_tag_every_log_line (rpc : string) (s : tf6server.server)
    (ctx : logging.Context) (req : Req) :
  Forall (λ e, logging.subsystem e = "proto"
               ∧ logging.fields e !! "tf_rpc" = Some rpc)
    (tf6server.providerRPC loggingContext fromproto call toproto
       rpc s ctx req).1
  ∧ Forall (λ e, logging.subsystem e = "proto"
                 ∧ logging.fields e !! "tf_rpc" = Some rpc
                 ∧ logging.fields e !! "tf_data_source_type"
                   = Some (TypeName req))
      (tf6server.dataSourceRPC loggingContext TypeName fromproto call toproto
         rpc s ctx req).1
  ∧ Forall (λ e, logging.subsystem e = "proto"
                 ∧ logging.fields e !! "tf_rpc" = Some rpc
                 ∧ logging.fields e !! "tf_resource_type"
                   = Some (TypeName req))
      (tf6server.resourceRPC loggingContext TypeName fromproto call toproto
         rpc s ctx req).1
  ∧ Forall (λ e, logging.subsystem e = "proto"
                 ∧ logging.fields e !! "tf_rpc"
                   = Some "ValidateProviderConfig")
      (tf6server.ValidateProviderConfig loggingContext fromproto call toproto
         s ctx req).1
  ∧ Forall (λ e, logging.subsystem e = "proto"
                 ∧ logging.fields e !! "tf_rpc" = Some "Stop")
      (tf6server.Stop loggingContext fromproto call toproto s ctx req).1.2.
Proof.
  unfold tf6server.providerRPC, tf6server.dataSourceRPC,
    tf6server.resourceRPC, tf6server.ValidateProviderConfig.
  repeat split.
  1-4: eapply Forall_impl; [apply relay_entries|].
  5: eapply Forall_impl; [apply Stop_entries|].
  all: intros e [Hsub ->]; split; [done|].
  all: unfold tf6server.stoppableContext, tf6server.resourceLoggingContext,
         tf6server.dataSourceLoggingContext, tf6server.rpcLoggingContext,
         tfsdklog.With, tflog.With, tfsdklog.SubsystemWith,
         tf6server.logKeyRPC, tf6server.logKeyResourceType,
         tf6server.logKeyDataSourceType, tf6server.tflogSubsystemName.
  all: cbn [logging.subsystemFields].
  all: rewrite !lookup_insert_eq; cbn [default]; unfold id.
  - apply lookup_insert_eq.
  - split; [by rewrite lookup_insert_ne, lookup_insert_eq
           | apply lookup_insert_eq].
  - split; [by rewrite lookup_insert_ne, lookup_insert_eq
           | apply lookup_insert_eq].
  - apply lookup_insert_eq.
  - apply lookup_insert_eq.
Qed.

(** What a handler logs and returns, case by case, for the context
    [ctx'] with which it calls the downstream provider: the request does
    not convert, the provider returns an error, the response does not
    convert, or all three steps succeed. *)
Definition stopsAtFirstError (s : tf6server.server) (ctx' : logging.Context)
    (req : Req) (out : list logging.Entry * (Ret + Go.error)) : Prop :=
  match fromproto req with
  | inr err =>
    logging.message <$> out.1
    = ["Received request"; "Error converting request from protobuf";
       "Served request"]
    ∧ out.2 = inr err
  | inl r =>
    match call (tf6server.downstream s) ctx' r with
    | inr err =>
      logging.message <$> out.1
      = ["Received request"; "Calling downstream"; "Error from downstream";
         "Served request"]
      ∧ out.2 = inr err
    | inl resp =>
      match toproto resp with
      | inr err =>
        logging.message <$> out.1
        = ["Received request"; "Calling downstream"; "Called downstream";
           "Error converting response to protobuf"; "Served request"]
        ∧ out.2 = inr err
      | inl ret =>
        logging.message <$> out.1
        = ["Received request"; "Calling downstream"; "Called downstream";
           "Served request"]
        ∧ out.2 = inl ret
      end
    end
  end.

Lemma relay_stopsAtFirstError s ctx req :
  stopsAtFirstError s ctx req
    (tf6server.relay fromproto call toproto s ctx req).
Proof.
  unfold stopsAtFirstError, tf6server.relay.
  destruct (fromproto req) as [r|err]; [|done].
  destruct (call _ ctx r) as [resp|err]; [|done].
  by destruct (toproto resp).
Qed.

(** A handler stops at the first error and returns it unchanged: a
    request that does not convert never reaches the downstream provider,
    a response is converted only when the provider returned one, and the
    log tells which of the three steps failed.  The provider is called
    once, with the context that carries the tags of the RPC and, except
    in [ValidateProviderConfig], watches the stop channel of the
    server. *)
Theorem handlers_stop_at_first_error (rpc : string) (s : tf6server.server)
    (ctx : logging.Context) (req : Req) :
  stopsAtFirstError s
    (tf6server.stoppableContext s
       (tf6server.rpcLoggingContext (loggingContext s ctx) rpc))
    req
    (tf6server.providerRPC loggingContext fromproto call toproto rpc s ctx req)
  ∧ stopsAtFirstError s
      (tf6server.rpcLoggingContext (loggingContext s ctx)
         "ValidateProviderConfig")
      req
      (tf6server.ValidateProviderConfig loggingContext fromproto call toproto
         s ctx req)
  ∧ stopsAtFirstError s
      (tf6server.stoppableContext s
         (tf6server.dataSourceLoggingContext
            (tf6server.rpcLoggingContext (loggingContext s ctx) rpc)
            (TypeName req)))
      req
      (tf6server.dataSourceRPC loggingContext TypeName fromproto call toproto
         rpc s ctx req)
  ∧ stopsAtFirstError s
      (tf6server.stoppableContext s
         (tf6server.resourceLoggingContext
            (tf6server.rpcLoggingContext (loggingContext s ctx) rpc)
            (TypeName req)))
      req
      (tf6server.resourceRPC loggingContext TypeName fromproto call toproto
         rpc s ctx req).
Proof. repeat split; apply relay_stopsAtFirstError. Qed.

(** [Stop] closes the contexts of the server exactly when the downstream
    provider has accepted the stop.  When the request does not convert or
    the provider returns an error, the server is unchanged and that error
    is returned.  When the provider returns a response, the server is
    stopped, the closing is logged, and the result is the conversion of
    the response: also when that conversion fails, in which case an error
    is returned although the contexts are closed. *)
Theorem stop_closes_contexts_after_downstream (s : tf6server.server)
    (ctx : logging.Context) (req : Req) :
  let out := tf6server.Stop loggingContext fromproto call toproto s ctx req in
  let messages := logging.message <$> out.1.2 in
  let ctx' :=
    tf6server.stoppableContext s
      (tf6server.rpcLoggingContext (loggingContext s ctx) "Stop") in
  match fromproto req with
  | inr err =>
    out.1.1 = s ∧ out.2 = inr err
    ∧ messages
      = ["Received request"; "Error converting request from protobuf";
         "Served request"]
  | inl r =>
    match call (tf6server.downstream s) ctx' r with
    | inr err =>
      out.1.1 = s ∧ out.2 = inr err
      ∧ messages
        = ["Received request"; "Calling downstream"; "Error from downstream";
           "Served request"]
    | inl resp =>
      out.1.1 = tf6server.stop s
      ∧ out.2 = toproto resp
      ∧ messages
        = (["Received request"; "Calling downstream"; "Called downstream";
            "Closing all our contexts"; "Closed all our contexts"]
           ++ match toproto resp with
              | inr _ => ["Error converting response to protobuf"]
              | inl _ => []
              end
           ++ ["Served request"])%list
    end
  end
  ∧ tf6server.stop s ≠ s.
Proof.
  cbv zeta. unfold tf6server.Stop. split.
  - destruct (fromproto req) as [r|err]; [|done].
    destruct (call _ _ r) as [resp|err]; [|done].
    by destruct (toproto resp).
  - intros Heq. apply (f_equal tf6server.stopCh) in Heq. simpl in Heq. lia.
Qed.

End HandlerTraces.

(** ** The handlers on concrete requests *)

Definition emptyContext : logging.Context :=
  {| logging.sdkFields := ∅; logging.subsystemFields := ∅;
     logging.providerFields := ∅; logging.stopChs := [] |}.

(** A server that has not been stopped yet. *)
Definition plainServer : tf6server.server (H := handles) :=
  @tf6server.Build_server handles 0 0 ∅ [tf6server.WithStderrFromInit]
    [tf6server.WithStderrFromInit] false None "etcd".

Lemma logging_contexts_compose_witness :
  logging.sdkFields
    (tf6server.resourceLoggingContext
       (tf6server.rpcLoggingContext
          (tfsdklog.With emptyContext "tf_req_id" "42") "ReadResource")
       "etcd_kv") !! "tf_req_id"
  = logging.sdkFields (tfsdklog.With emptyContext "tf_req_id" "42")
      !! "tf_req_id".
Proof.
  destruct (logging_contexts_compose
              (tfsdklog.With emptyContext "tf_req_id" "42")
              "ReadResource" "etcd_kv") as (_ & _ & Hother & _).
  destruct (Hother "tf_req_id") as (Hsdk & _).
  - discriminate.
  - discriminate.
  - exact Hsdk.
Defined.

(** A provider that fails once the stop channel 0 is among those that
    its context watches. *)
Definition refusesStoppable (p : nat) (ctx : logging.Context) (r : string)
  : string + Go.error :=
  if bool_decide (0 ∈ logging.stopChs ctx) then inr Go.DeadlineExceeded
  else inl r.

Lemma handlers_stop_at_first_error_witness :
  (logging.message
     <$> (tf6server.resourceRPC (H := handles) (λ _ ctx, ctx) (λ req, req)
            (λ req : string, @inl string Go.error req)
            refusesStoppable (λ resp, @inl string Go.error resp)
            "ReadResource" plainServer emptyContext "etcd_kv").1
   = ["Received request"; "Calling downstream"; "Error from downstream";
      "Served request"]
   ∧ (tf6server.resourceRPC (H := handles) (λ _ ctx, ctx) (λ req, req)
        (λ req : string, @inl string Go.error req)
        refusesStoppable (λ resp, @inl string Go.error resp)
        "ReadResource" plainServer emptyContext "etcd_kv").2
     = inr Go.DeadlineExceeded)
  ∧ (tf6server.ValidateProviderConfig (H := handles) (λ _ ctx, ctx)
       (λ req : string, @inl string Go.error req)
       refusesStoppable (λ resp, @inl string Go.error resp)
       plainServer emptyContext "config").2
    = inl "config".
Proof.
  destruct (handlers_stop_at_first_error (H := handles) (λ _ ctx, ctx)
              (λ req, req) (λ req : string, @inl string Go.error req)
              refusesStoppable (λ resp, @inl string Go.error resp)
              "ReadResource" plainServer emptyContext "etcd_kv")
    as (_ & _ & _ & Hresource).
  destruct (handlers_stop_at_first_error (H := handles) (λ _ ctx, ctx)
              (λ req, req) (λ req : string, @inl string Go.error req)
              refusesStoppable (λ resp, @inl string Go.error resp)
              "ReadResource" plainServer emptyContext "config")
    as (_ & Hvalidate & _).
  split; [exact Hresource | exact (proj2 Hvalidate)].
Defined.

Lemma stop_closes_contexts_after_downstream_witness :
  (tf6server.Stop (H := handles) (λ _ ctx, ctx)
     (λ req : string, @inl _ Go.error req)
     (λ _ _ r, @inl string _ r)
     (λ _ : string, @inr string _ Go.DeadlineExceeded)
     plainServer emptyContext "stop").1.1
  = tf6server.stop plainServer
  ∧ (tf6server.Stop (H := handles) (λ _ ctx, ctx)
       (λ req : string, @inl _ Go.error req)
       (λ _ _ r, @inl string _ r)
       (λ _ : string, @inr string _ Go.DeadlineExceeded)
       plainServer emptyContext "stop").2
    = inr Go.DeadlineExceeded
  ∧ (tf6server.Stop (H := handles) (λ _ ctx, ctx)
       (λ req : string, @inl _ Go.error req)
       refusesStoppable
       (λ resp : string, @inl string _ resp)
       plainServer emptyContext "stop").1.1
    = plainServer.
Proof.
  destruct (stop_closes_contexts_after_downstream (H := handles)
              (λ _ ctx, ctx) (λ req : string, @inl _ Go.error req)
              (λ _ _ r, @inl string _ r)
              (λ _ : string, @inr string _ Go.DeadlineExceeded)
              plainServer emptyContext "stop") as ((Hstopped & Hres & _) & _).
  destruct (stop_closes_contexts_after_downstream (H := handles)
              (λ _ ctx, ctx) (λ req : string, @inl _ Go.error req)
              refusesStoppable (λ resp : string, @inl string _ resp)
              plainServer emptyContext "stop") as ((Hsame & _) & _).
  split; [exact Hstopped|]. split; [exact Hres | exact Hsame].
Defined.
